(** * Payment confirmation and fulfilment of the shop bot (bot.py)

    A shallow embedding of the storage helpers, the gateway client and the
    two payment handlers [cb_buy] and [cb_check_payment] of [bot.py], then
    of the settings tables, the router and the conversations of the
    administrators, followed by the properties of the payment ledger, the
    purchase ledger, the per-user counters, the catalogue and the
    dispatcher.

    Conventions of the embedding:
    - a SQLite table with a PRIMARY KEY that the code addresses by key
      ([users], [categories], [products]) is a finite map from the key to
      the row; a table that is read by another column and may hold several
      rows with the same value there ([payments], [purchases]) is the list
      of its rows in insertion (rowid) order;
    - a REAL amount is an integer; the examples write amounts in minor units
      (9.99 is 999). Amounts are stored, copied and compared; the code adds
      amounts in two places only, [add_purchase] (total_spent + ?) and
      [get_stats] (SUM), where SQLite adds in floating point and the
      embedding adds the integers. No property below rests on more than the
      single addition of [add_purchase];
    - [datetime.now().isoformat()] is the argument [now] of the helper that
      stamps a row;
    - every awaited storage helper, gateway round trip and bot API call of
      the two handlers is one atomic action of a [prog]; a storage helper
      opens its own connection and commits once, so no other task sees it
      half done;
    - the tables [media_settings] and [shop_settings] are kept apart from
      the tables of the shop, in a record of their own;
    - a SELECT without ORDER BY returns its rows in rowid order, as SQLite
      does for a scan of the table. *)

From stdpp Require Import gmap strings list fin_maps sorting.
From Stdlib Require Import ZArith Ascii.
From Stdlib Require DecimalString.

Open Scope Z_scope.

(** ** Rows and the database *)

Definition timestamp := string.

(** users(user_id PRIMARY KEY, username, first_name, balance DEFAULT 0,
    total_purchases DEFAULT 0, total_spent DEFAULT 0, registered_at) *)
Record user_row := mk_user {
  username : option string;
  first_name : string;
  balance : Z;
  total_purchases : Z;
  total_spent : Z;
  registered_at : timestamp
}.

(** products(id AUTOINCREMENT, category_id, name NOT NULL, description,
    price NOT NULL, product_type DEFAULT 'text', content, file_id,
    is_active DEFAULT 1, created_at); description, content and file_id may
    be NULL. *)
Record product_row := mk_product {
  category_id : Z;
  name : string;
  description : option string;
  price : Z;
  product_type : string;
  content : option string;
  file_id : option string;
  is_active : Z;
  created_at : timestamp
}.

(** purchases(id AUTOINCREMENT, user_id, product_id, price, purchased_at) *)
Record purchase_row := mk_purchase {
  purchase_id : Z;
  purchase_user_id : Z;
  purchase_product_id : Z;
  purchase_price : Z;
  purchased_at : timestamp
}.

(** payments(id AUTOINCREMENT, user_id, product_id, invoice_id TEXT, amount,
    status DEFAULT 'pending', created_at); the schema puts no UNIQUE
    constraint on invoice_id. *)
Record payment_row := mk_payment {
  payment_id : Z;
  payment_user_id : Z;
  payment_product_id : Z;
  invoice_id : string;
  amount : Z;
  status : string;
  payment_created_at : timestamp
}.

(** [seq_categories] and [seq_products] are the AUTOINCREMENT counters of
    the tables rows are deleted from; [purchases] and [payments] never lose
    a row, so their next id is their length plus one. *)
Record db := mk_db {
  users : gmap Z user_row;
  categories : gmap Z string;
  seq_categories : Z;
  products : gmap Z product_row;
  seq_products : Z;
  purchases : list purchase_row;
  payments : list payment_row
}.

Definition with_users (f : gmap Z user_row → gmap Z user_row) (s : db) : db :=
  mk_db (f (users s)) (categories s) (seq_categories s) (products s)
        (seq_products s) (purchases s) (payments s).

Definition with_products (f : gmap Z product_row → gmap Z product_row) (s : db) : db :=
  mk_db (users s) (categories s) (seq_categories s) (f (products s))
        (seq_products s) (purchases s) (payments s).

Definition with_purchases (f : list purchase_row → list purchase_row) (s : db) : db :=
  mk_db (users s) (categories s) (seq_categories s) (products s)
        (seq_products s) (f (purchases s)) (payments s).

Definition with_payments (f : list payment_row → list payment_row) (s : db) : db :=
  mk_db (users s) (categories s) (seq_categories s) (products s)
        (seq_products s) (purchases s) (f (payments s)).

(** ** Storage helpers *)

(** [init_db] on a fresh file: every table empty. *)
Definition init_db : db := mk_db ∅ ∅ 0 ∅ 0 [] [].

(** INSERT OR IGNORE INTO users (user_id, username, first_name, registered_at) *)
Definition add_user (user_id : Z) (uname : option string) (fname : string)
    (now : timestamp) (s : db) : db :=
  match users s !! user_id with
  | Some _ => s
  | None => with_users (insert user_id (mk_user uname fname 0 0 0 now)) s
  end.

Definition get_user (user_id : Z) (s : db) : option user_row :=
  users s !! user_id.

(** The order of two rows by their rowid, which is the INTEGER PRIMARY KEY. *)
Definition by_rowid {A : Type} (kv kv' : Z * A) : Prop := kv.1 ≤ kv'.1.

#[export] Instance by_rowid_dec {A : Type} (kv kv' : Z * A) : Decision (by_rowid kv kv').
Proof. unfold by_rowid. apply _. Defined.


Definition add_category (cname : string) (s : db) : db :=
  mk_db (users s) (<[seq_categories s + 1 := cname]> (categories s))
        (seq_categories s + 1) (products s) (seq_products s)
        (purchases s) (payments s).

(** DELETE FROM products WHERE category_id = ?; DELETE FROM categories
    WHERE id = ? *)
Definition delete_category (cat_id : Z) (s : db) : db :=
  mk_db (users s) (delete cat_id (categories s)) (seq_categories s)
        (filter (λ kv, category_id kv.2 ≠ cat_id) (products s))
        (seq_products s) (purchases s) (payments s).

(** SELECT * FROM products WHERE category_id = ? AND is_active = 1 *)
Definition get_products_by_category (cat_id : Z) (s : db) : list (Z * product_row) :=
  merge_sort by_rowid
    (map_to_list (filter (λ kv, category_id kv.2 = cat_id ∧ is_active kv.2 = 1)
                         (products s))).

(** SELECT * FROM products WHERE id = ? *)
Definition get_product (product_id : Z) (s : db) : option product_row :=
  products s !! product_id.

Definition add_product (cat_id : Z) (pname : string) (pdesc : option string)
    (pprice : Z) (ptype : string) (pcontent pfile : option string) (now : timestamp)
    (s : db) : db :=
  mk_db (users s) (categories s) (seq_categories s)
        (<[seq_products s + 1 :=
             mk_product cat_id pname pdesc pprice ptype pcontent pfile 1 now]>
           (products s))
        (seq_products s + 1) (purchases s) (payments s).

Definition deactivate (p : product_row) : product_row :=
  mk_product (category_id p) (name p) (description p) (price p)
             (product_type p) (content p) (file_id p) 0 (created_at p).

(** UPDATE products SET is_active = 0 WHERE id = ? *)
Definition delete_product (product_id : Z) (s : db) : db :=
  with_products (alter deactivate product_id) s.

Definition credit (p : Z) (u : user_row) : user_row :=
  mk_user (username u) (first_name u) (balance u)
          (total_purchases u + 1) (total_spent u + p) (registered_at u).

(** INSERT INTO purchases (...); UPDATE users SET total_purchases =
    total_purchases + 1, total_spent = total_spent + ? WHERE user_id = ?;
    one commit for both statements. *)
Definition add_purchase (user_id product_id pprice : Z) (now : timestamp)
    (s : db) : db :=
  with_users (alter (credit pprice) user_id)
    (with_purchases
       (λ l, l ++ [mk_purchase (Z.of_nat (length l) + 1) user_id product_id
                               pprice now]) s).

(** INSERT INTO payments (user_id, product_id, invoice_id, amount,
    created_at); status takes its default. *)
Definition save_payment (user_id product_id : Z) (inv : string) (amt : Z)
    (now : timestamp) (s : db) : db :=
  with_payments
    (λ l, l ++ [mk_payment (Z.of_nat (length l) + 1) user_id product_id inv
                           amt "pending" now]) s.

Definition set_status (st : string) (p : payment_row) : payment_row :=
  mk_payment (payment_id p) (payment_user_id p) (payment_product_id p)
             (invoice_id p) (amount p) st (payment_created_at p).

(** UPDATE payments SET status = ? WHERE invoice_id = ? *)
Definition update_payment_status (inv st : string) (s : db) : db :=
  with_payments
    (map (λ p, if String.eqb (invoice_id p) inv then set_status st p else p)) s.

(** SELECT * FROM payments WHERE invoice_id = ?, fetchone: the first
    matching row. *)
Definition get_payment (inv : string) (s : db) : option payment_row :=
  find (λ p, String.eqb (invoice_id p) inv) (payments s).

(** COUNT users, COUNT purchases, COALESCE(SUM(price), 0), COUNT active
    products. The three counts are what SQLite returns; the sum is the exact
    one, where SQLite adds the REAL prices in floating point. *)
Definition get_stats (s : db) : Z * Z * Z * Z :=
  (Z.of_nat (size (users s)),
   Z.of_nat (length (purchases s)),
   foldr Z.add 0 (purchase_price <$> purchases s),
   Z.of_nat (size (filter (λ kv : Z * product_row, is_active kv.2 = 1) (products s)))).

(** ** The invoice processor *)

(** An invoice object of the processor, as far as the code reads it. *)
Record invoice := mk_invoice {
  inv_invoice_id : Z;
  inv_status : string;
  inv_pay_url : string
}.

(** The JSON envelope of an answer: [ok], [result] and, on refusal, the
    name of the error (for example AMOUNT_INVALID). *)
Record envelope (R : Type) := mk_envelope {
  env_ok : bool;
  env_result : option R;
  env_error : option string
}.
Arguments mk_envelope {R} _ _ _.
Arguments env_ok {R} _.
Arguments env_result {R} _.
Arguments env_error {R} _.

(** What one HTTP round trip gives: the transport fails (aiohttp raises), or
    an answer with its HTTP status and its JSON body arrives. *)
Inductive http_reply (R : Type) :=
  | TransportFailure
  | Reply (http_status : Z) (body : envelope R).
Arguments TransportFailure {R}.
Arguments Reply {R} _ _.

(** [str(invoice['invoice_id'])] *)
Definition str (z : Z) : string :=
  DecimalString.NilZero.string_of_int (Z.to_int z).

(** ** What a handler sends *)

Inductive text :=
  | ProductNotFoundText                 (* "product not found" *)
  | CreateErrorText                     (* "payment creation error, try later" *)
  | CheckErrorText                      (* "payment check error" *)
  | AlreadyIssuedText                   (* "the product has already been issued!" *)
  | PaymentNotFoundText                 (* "payment not found, try later" *)
  | PayText (pname : string) (pprice : Z)
  | PaidText (pname : string) (pcontent : option (option string))
  | NewPurchaseText (buyer : option string) (pname : string) (amt : Z).

Inductive keyboard :=
  | back_button (callback_data : string)
  | pay_keyboard (pay_url : string) (check_id : Z) (prod_id : Z).

Inductive effect :=
  | answer (to : Z) (alert : option text)
  | edit_text (chat : Z) (t : text) (markup : option keyboard)
  | send_document (chat : Z) (file : option string) (markup : option keyboard)
  | send_message (chat : Z) (t : text).

(** The callback query a handler receives: who pressed the button and the
    chat of the message that carries it. [callback.data.split("_")[1]] is
    passed to the handler next to it. *)
Record callback := mk_callback {
  from_user_id : Z;
  from_username : option string;
  message_chat_id : Z
}.

(** ** Handlers as sequences of awaited actions *)

Inductive exn :=
  | ClientError        (* aiohttp: the transport failed *)
  | KeyError           (* a missing key of a JSON object *)
  | TypeError          (* subscripting None *)
  | OperationalError   (* aiosqlite: the storage call failed *)
  | TelegramError.     (* aiogram: the bot API call failed *)

Inductive res (A : Type) :=
  | Ok (a : A)
  | Err (e : exn).
Arguments Ok {A} _.
Arguments Err {A} _.

(** One awaited call. [Http] carries the processor's answer to this call;
    [Query] and [Update] are storage helpers; [Send] is a bot API call and
    [TrySend] one wrapped in [try: ... except: pass]. *)
Inductive action : Type → Type :=
  | Http {R : Type} (reply : http_reply R) : action (http_reply R)
  | Query {X : Type} (q : db → X) : action X
  | Update (u : db → db) : action unit
  | Send (e : effect) : action unit
  | TrySend (e : effect) : action unit.

Inductive prog (A : Type) : Type :=
  | Ret (a : A)
  | Raise (e : exn)
  | Await {X : Type} (a : action X) (k : X → prog A).
Arguments Ret {A} _.
Arguments Raise {A} _.
Arguments Await {A X} _ _.

Fixpoint prog_bind {A B : Type} (f : A → prog B) (p : prog A) : prog B :=
  match p with
  | Ret a => f a
  | Raise e => Raise e
  | Await a k => Await a (λ x, prog_bind f (k x))
  end.

#[export] Instance prog_mret : MRet prog := @Ret.
#[export] Instance prog_mbind : MBind prog := @prog_bind.

Definition await {X : Type} (a : action X) : prog X := Await a Ret.

(** The effect of an awaited call that completes. *)
Definition perform {X : Type} (a : action X) (s : db) : X * db * list effect :=
  match a in action T return T * db * list effect with
  | Http reply => (reply, s, [])
  | Query q => (q s, s, [])
  | Update u => (tt, u s, [])
  | Send e => (tt, s, [e])
  | TrySend e => (tt, s, [e])
  end.

(** What the awaiting code sees when the awaited call raises instead: the
    exception, or nothing at all under [try: ... except: pass]. A storage
    helper that raises has not committed. *)
Definition failed {X : Type} (a : action X) : res X :=
  match a in action T return res T with
  | Http _ => Err ClientError
  | Query _ => Err OperationalError
  | Update _ => Err OperationalError
  | Send _ => Err TelegramError
  | TrySend _ => Ok tt
  end.

Record outcome (A : Type) := mk_outcome {
  result : res A;
  store : db;
  sent : list effect
}.
Arguments mk_outcome {A} _ _ _.
Arguments result {A} _.
Arguments store {A} _.
Arguments sent {A} _.

Definition also {A : Type} (l : list effect) (o : outcome A) : outcome A :=
  mk_outcome (result o) (store o) (l ++ sent o).

(** [exec p faults s] runs [p] from [s]; the n-th awaited call raises when
    the n-th element of [faults] is [true] (none does past its end). *)
Fixpoint exec {A : Type} (p : prog A) (faults : list bool) (s : db) : outcome A :=
  match p with
  | Ret a => mk_outcome (Ok a) s []
  | Raise e => mk_outcome (Err e) s []
  | Await a k =>
      if hd false faults then
        match failed a with
        | Ok x => exec (k x) (tl faults) s
        | Err e => mk_outcome (Err e) s []
        end
      else
        let '(x, s', l) := perform a s in
        also l (exec (k x) (tl faults) s')
  end.

(** A run in which every awaited call completes. *)
Definition run {A : Type} (p : prog A) (s : db) : outcome A := exec p [] s.

(** Two handler invocations served as concurrent tasks: the scheduler picks
    which task performs its next awaited call ([false] the first task,
    [true] the second); a task that has returned or raised ignores its
    turn. *)
Fixpoint interleave (sched : list bool) (p q : prog unit) (s : db)
    : prog unit * prog unit * db * list effect :=
  match sched with
  | [] => (p, q, s, [])
  | false :: sched' =>
      match p with
      | Await a k =>
          let '(x, s', l) := perform a s in
          let '(p', q', s'', l') := interleave sched' (k x) q s' in
          (p', q', s'', l ++ l')
      | _ => interleave sched' p q s
      end
  | true :: sched' =>
      match q with
      | Await a k =>
          let '(x, s', l) := perform a s in
          let '(p', q', s'', l') := interleave sched' p (k x) s' in
          (p', q', s'', l ++ l')
      | _ => interleave sched' p q s
      end
  end.

Definition finished {A : Type} (p : prog A) : bool :=
  match p with
  | Await _ _ => false
  | _ => true
  end.

(** ** Gateway client *)

(** [create_invoice]: POST createInvoice, [result = await resp.json()],
    [if result.get("ok"): return result["result"]], otherwise [None]. The
    HTTP status and the error of the envelope are not read. Building the
    request (amount, description, payload, the user name of the bot) touches
    no table and is part of the one [Http] action. *)
Definition create_invoice (reply : http_reply invoice) : prog (option invoice) :=
  r ← await (Http reply);
  match r with
  | TransportFailure => Raise ClientError
  | Reply _ body =>
      if env_ok body then
        match env_result body with
        | Some inv => Ret (Some inv)
        | None => Raise KeyError
        end
      else Ret None
  end.

(** [check_invoice]: GET getInvoices, [if result.get("ok") and
    result["result"]["items"]: return items[0]], otherwise [None]. *)
Definition check_invoice (reply : http_reply (list invoice)) : prog (option invoice) :=
  r ← await (Http reply);
  match r with
  | TransportFailure => Raise ClientError
  | Reply _ body =>
      if env_ok body then
        match env_result body with
        | Some items => Ret (head items)
        | None => Raise KeyError
        end
      else Ret None
  end.

(** ** Payment handlers *)

(** [cb_buy], with [prod_id = int(callback.data.split("_")[1])]. *)
Definition cb_buy (cb : callback) (prod_id : Z) (reply : http_reply invoice)
    (now : timestamp) : prog unit :=
  product ← await (Query (get_product prod_id));
  match product with
  | None => await (Send (answer (from_user_id cb) (Some ProductNotFoundText)))
  | Some product =>
      inv ← create_invoice reply;
      match inv with
      | None => await (Send (answer (from_user_id cb) (Some CreateErrorText)))
      | Some inv =>
          await (Update (save_payment (from_user_id cb) prod_id
                           (str (inv_invoice_id inv)) (price product) now));;
          await (Send (edit_text (message_chat_id cb)
                         (PayText (name product) (price product))
                         (Some (pay_keyboard (inv_pay_url inv)
                                  (inv_invoice_id inv) prod_id))));;
          await (Send (answer (from_user_id cb) None))
      end
  end.

(** [payment and payment['status'] == 'pending'] *)
Definition pending (payment : option payment_row) : option payment_row :=
  match payment with
  | Some p => if String.eqb (status p) "pending" then Some p else None
  | None => None
  end.

(** [product['name']] on the row [get_product] returned: subscripting
    [None] raises TypeError. *)
Definition subscript (product : option product_row) : prog product_row :=
  match product with
  | Some p => Ret p
  | None => Raise TypeError
  end.

(** The message with the product: a text product is shown in the edited
    message, a file product is sent as a document to the user who pressed
    the button. *)
Definition deliver (cb : callback) (product : product_row) : prog unit :=
  if String.eqb (product_type product) "text" then
    await (Send (edit_text (message_chat_id cb)
                   (PaidText (name product) (Some (content product)))
                   (Some (back_button "shop"))))
  else
    await (Send (edit_text (message_chat_id cb)
                   (PaidText (name product) None) None));;
    await (Send (send_document (from_user_id cb) (file_id product)
                   (Some (back_button "shop")))).

(** [for admin_id in ADMIN_IDS: try: await bot.send_message(...) except: pass] *)
Fixpoint notify_admins (ADMIN_IDS : list Z) (t : text) : prog unit :=
  match ADMIN_IDS with
  | [] => Ret tt
  | admin_id :: rest =>
      await (TrySend (send_message admin_id t));; notify_admins rest t
  end.

(** [cb_check_payment], with [inv = callback.data.split("_")[1]]. *)
Definition cb_check_payment (ADMIN_IDS : list Z) (cb : callback) (inv : string)
    (reply : http_reply (list invoice)) (now : timestamp) : prog unit :=
  invoice ← check_invoice reply;
  match invoice with
  | None => await (Send (answer (from_user_id cb) (Some CheckErrorText)))
  | Some invoice =>
      if String.eqb (inv_status invoice) "paid" then
        payment ← await (Query (get_payment inv));
        match pending payment with
        | Some payment =>
            await (Update (update_payment_status inv "paid"));;
            product ← await (Query (get_product (payment_product_id payment)));
            await (Update (add_purchase (from_user_id cb)
                             (payment_product_id payment) (amount payment) now));;
            product ← subscript product;
            deliver cb product;;
            notify_admins ADMIN_IDS
              (NewPurchaseText (from_username cb) (name product) (amount payment))
        | None =>
            await (Send (answer (from_user_id cb) (Some AlreadyIssuedText)))
        end
      else
        await (Send (answer (from_user_id cb) (Some PaymentNotFoundText)))
  end.

(** ** Outcomes of a payment check, read off what the handler sent *)

Definition is_delivery (e : effect) : bool :=
  match e with
  | edit_text _ (PaidText _ _) _ => true
  | send_document _ _ _ => true
  | _ => false
  end.

Definition delivers (l : list effect) : bool := existsb is_delivery l.

(** ** Sequences of operations on the store *)

Inductive op :=
  | OpAddUser (user_id : Z) (uname : option string) (fname : string) (now : timestamp)
  | OpAddCategory (cname : string)
  | OpDeleteCategory (cat_id : Z)
  | OpAddProduct (cat_id : Z) (pname : string) (pdesc : option string) (pprice : Z)
                 (ptype : string) (pcontent pfile : option string) (now : timestamp)
  | OpDeleteProduct (product_id : Z)
  | OpAddPurchase (user_id product_id pprice : Z) (now : timestamp)
  | OpSavePayment (user_id product_id : Z) (inv : string) (amt : Z) (now : timestamp)
  | OpUpdatePaymentStatus (inv st : string)
  | OpBuy (cb : callback) (prod_id : Z) (reply : http_reply invoice) (now : timestamp)
  | OpCheck (ADMIN_IDS : list Z) (cb : callback) (inv : string)
            (reply : http_reply (list invoice)) (now : timestamp).

Definition apply_op (o : op) (s : db) : db :=
  match o with
  | OpAddUser u n f t => add_user u n f t s
  | OpAddCategory c => add_category c s
  | OpDeleteCategory c => delete_category c s
  | OpAddProduct c n d p ty co fi t => add_product c n d p ty co fi t s
  | OpDeleteProduct p => delete_product p s
  | OpAddPurchase u p pr t => add_purchase u p pr t s
  | OpSavePayment u p i a t => save_payment u p i a t s
  | OpUpdatePaymentStatus i st => update_payment_status i st s
  | OpBuy cb p r t => store (run (cb_buy cb p r t) s)
  | OpCheck adm cb i r t => store (run (cb_check_payment adm cb i r t) s)
  end.

Definition apply_ops (ops : list op) (s : db) : db :=
  foldl (λ s o, apply_op o s) s ops.

(** ** Predicates and read-outs the properties are stated with *)

(** The invoice ids of the payment ledger, in insertion order. *)
Definition invoice_ids (s : db) : list string := invoice_id <$> payments s.

(** The operations that add a payment row do so under an invoice id that is
    not in the ledger yet. *)
Definition fresh_op (o : op) (s : db) : Prop :=
  match o with
  | OpSavePayment _ _ inv _ _ => inv ∉ invoice_ids s
  | OpBuy _ _ reply _ =>
      match result (run (create_invoice reply) s) with
      | Ok (Some i) => str (inv_invoice_id i) ∉ invoice_ids s
      | _ => True
      end
  | _ => True
  end.

Fixpoint fresh_ops (ops : list op) (s : db) : Prop :=
  match ops with
  | [] => True
  | o :: ops' => fresh_op o s ∧ fresh_ops ops' (apply_op o s)
  end.

(** What [deliver] sends. *)
Definition delivery (cb : callback) (product : product_row) : list effect :=
  if String.eqb (product_type product) "text" then
    [edit_text (message_chat_id cb)
       (PaidText (name product) (Some (content product)))
       (Some (back_button "shop"))]
  else
    [edit_text (message_chat_id cb) (PaidText (name product) None) None;
     send_document (from_user_id cb) (file_id product) (Some (back_button "shop"))].

(** What [notify_admins] sends. *)
Definition alerts (ADMIN_IDS : list Z) (t : text) : list effect :=
  (λ admin_id, send_message admin_id t) <$> ADMIN_IDS.

(** The administrators an alert reaches: [flags] tells, in the order of
    ADMIN_IDS, which of the sends raise (none past its end). *)
Fixpoint reached (ADMIN_IDS : list Z) (flags : list bool) : list Z :=
  match ADMIN_IDS with
  | [] => []
  | admin_id :: rest =>
      if hd false flags then reached rest (tl flags)
      else admin_id :: reached rest (tl flags)
  end.

(** The purchase rows of a user. *)
Definition purchases_of (user_id : Z) (s : db) : list purchase_row :=
  filter (λ r, purchase_user_id r = user_id) (purchases s).

(** ** Further predicates over stores and operations *)

(** A payment row without its status: the columns written once by
    [save_payment]. *)
Definition snapshot (p : payment_row) : payment_row := set_status "" p.

(** The rows of a table created by AUTOINCREMENT inserts alone are numbered
    1, 2, 3, ... in insertion order. *)
Definition numbered (ids : list Z) : Prop :=
  ids = Z.of_nat <$> seq 1 (length ids).

Definition ledgers_numbered (s : db) : Prop :=
  numbered (purchase_id <$> purchases s) ∧ numbered (payment_id <$> payments s).

(** No product row has an id above the AUTOINCREMENT counter. *)
Definition products_below_seq (s : db) : Prop :=
  ∀ product_id, is_Some (products s !! product_id) → product_id ≤ seq_products s.

(** The only status the handlers ever write is 'paid'. *)
Definition marks_paid_only (o : op) : Prop :=
  match o with
  | OpUpdatePaymentStatus _ st => st = "paid"
  | _ => True
  end.

(** A payment check of the invoice [inv]. *)
Definition is_check_of (inv : string) (o : op) : Prop :=
  match o with
  | OpCheck _ _ i _ _ => i = inv
  | _ => False
  end.

(** ** Settings tables and the media of the menus *)

(** media_settings(key TEXT PRIMARY KEY, media_type, file_id) and
    shop_settings(key TEXT PRIMARY KEY, value); a value may be NULL. A TEXT
    PRIMARY KEY of SQLite admits NULL, and two NULL keys do not collide:
    [media_settings_null] holds the rows stored under a NULL key, in
    insertion order; no WHERE key = ? of the code matches them. No helper of
    these two tables touches a table of [db], and no helper of [db] touches
    these. *)
Record media_row := mk_media {
  media_type : string;
  media_file_id : string
}.

Record settings := mk_settings {
  media_settings : gmap string media_row;
  media_settings_null : list media_row;
  shop_settings : gmap string (option string)
}.

Definition no_settings : settings := mk_settings ∅ [] ∅.

(** INSERT OR REPLACE INTO media_settings (key, media_type, file_id); the
    key is [None] when the caller passes Python's None. *)
Definition set_media (key : option string) (mtype fid : string) (c : settings)
    : settings :=
  match key with
  | Some key =>
      mk_settings (<[key := mk_media mtype fid]> (media_settings c))
                  (media_settings_null c) (shop_settings c)
  | None =>
      mk_settings (media_settings c) (media_settings_null c ++ [mk_media mtype fid])
                  (shop_settings c)
  end.

(** SELECT * FROM media_settings WHERE key = ? *)
Definition get_media (key : string) (c : settings) : option media_row :=
  media_settings c !! key.

(** DELETE FROM media_settings WHERE key = ? (in [cb_delmedia]) *)
Definition delete_media (key : string) (c : settings) : settings :=
  mk_settings (delete key (media_settings c)) (media_settings_null c)
              (shop_settings c).

(** [get_shop_setting]: [row[0] if row else default]; the result is [None]
    when the stored value is NULL. *)
Definition get_shop_setting (key default_value : string) (c : settings) : option string :=
  match shop_settings c !! key with
  | Some value => value
  | None => Some default_value
  end.

(** INSERT OR REPLACE INTO shop_settings (key, value) *)
Definition set_shop_setting (key : string) (value : option string) (c : settings) : settings :=
  mk_settings (media_settings c) (media_settings_null c)
              (<[key := value]> (shop_settings c)).

(** What [send_with_media] and the broadcast send; [K] is the type of reply
    markups. *)
Inductive sending (K : Type) :=
  | send_photo (chat : Z) (file : string) (caption : option string) (markup : option K)
  | send_video (chat : Z) (file : string) (caption : option string) (markup : option K)
  | send_animation (chat : Z) (file : string) (caption : option string) (markup : option K)
  | send_text (chat : Z) (body : option string) (markup : option K).
Arguments send_photo {K} _ _ _ _.
Arguments send_video {K} _ _ _ _.
Arguments send_animation {K} _ _ _ _.
Arguments send_text {K} _ _ _.

(** [send_with_media]: the media of the menu with the text as caption when
    one is set, the plain text otherwise; a stored media type that is none
    of the three sends nothing. *)
Definition send_with_media {K : Type} (chat : Z) (body media_key : string)
    (markup : option K) (c : settings) : list (sending K) :=
  match get_media media_key c with
  | Some media =>
      if String.eqb (media_type media) "photo" then
        [send_photo chat (media_file_id media) (Some body) markup]
      else if String.eqb (media_type media) "video" then
        [send_video chat (media_file_id media) (Some body) markup]
      else if String.eqb (media_type media) "animation" then
        [send_animation chat (media_file_id media) (Some body) markup]
      else []
  | None => [send_text chat (Some body) markup]
  end.

(** A message as the handlers read it: chat and sender, the text or the
    caption, and the media fields (the file ids of the photo sizes, smallest
    first). The last four fields are what library code computes from the
    message and the handlers take as given: whether the command filters
    accept it as /start or /admin, whether its content type is photo, video
    or animation, and what [float(message.text.replace(",", "."))] gives:
    [None] when it raises, [Some None] when the text reads as not-a-number
    (a value SQLite stores as NULL), and otherwise the amount read. *)
Record message := mk_message {
  msg_chat_id : Z;
  msg_from_id : Z;
  msg_username : option string;
  msg_first_name : string;
  msg_text : option string;
  msg_caption : option string;
  msg_photo : list string;
  msg_video : option string;
  msg_animation : option string;
  msg_document : option string;
  msg_is_start : bool;
  msg_is_admin : bool;
  msg_is_media : bool;
  msg_price : option (option Z)
}.

(** [if message.photo: ... elif message.video: ... elif message.animation:
    ...]: the media type and the file id [process_media_file] stores. *)
Definition media_of (m : message) : option (string * string) :=
  match last (msg_photo m) with
  | Some fid => Some ("photo", fid)
  | None =>
      match msg_video m with
      | Some fid => Some ("video", fid)
      | None =>
          match msg_animation m with
          | Some fid => Some ("animation", fid)
          | None => None
          end
      end
  end.




(** Every stored media type is one [send_with_media] knows. *)
Definition media_types_known (c : settings) : Prop :=
  ∀ key media, media_settings c !! key = Some media →
    media_type media = "photo" ∨ media_type media = "video" ∨
    media_type media = "animation".

(** ** Callback data *)

(** [s.split(sep)] of Python for a one-character separator: the pieces
    between the separators, empty ones included. *)
Fixpoint split_on (sep : Ascii.ascii) (s : string) : list string :=
  match s with
  | EmptyString => [EmptyString]
  | String c s' =>
      if Ascii.eqb c sep then EmptyString :: split_on sep s'
      else
        match split_on sep s' with
        | piece :: pieces => String c piece :: pieces
        | [] => [String c EmptyString]
        end
  end.

(** [callback.data.split("_")[1]]; [None] is the IndexError. *)
Definition data_arg (data : string) : option string :=
  split_on "_"%char data !! 1%nat.

(** [s.replace(pat, "")] of Python for a non-empty [pat]: every occurrence
    of [pat], found from the left, is dropped; [skip] counts the characters
    of an occurrence that are still to be dropped. *)
Fixpoint remove_all_from (pat : string) (skip : nat) (s : string) : string :=
  match s with
  | EmptyString => EmptyString
  | String c s' =>
      match skip with
      | S k => remove_all_from pat k s'
      | O =>
          if String.prefix pat s then remove_all_from pat (String.length pat - 1) s'
          else String c (remove_all_from pat 0 s')
      end
  end.

Definition remove_all (pat s : string) : string := remove_all_from pat 0 s.

(** The data of the check button of the payment screen:
    [f"check_{invoice['invoice_id']}"]. *)
Definition check_button_data (k : keyboard) : option string :=
  match k with
  | pay_keyboard _ check_id _ => Some ("check_" +:+ str check_id)
  | back_button _ => None
  end.

(** ** The router *)

(** [AdminStates] *)
Inductive admin_state :=
  | broadcast_text | broadcast_media | set_media_select | set_media_file
  | add_category_name | add_product_category | add_product_name
  | add_product_desc | add_product_price | add_product_type
  | add_product_content | add_product_file | edit_shop_info.

#[export] Instance admin_state_eq_dec : EqDecision admin_state.
Proof. solve_decision. Defined.

(** The data a conversation has gathered ([state.update_data]): a key that
    is absent is [None]; [name] and [description] hold [message.text], which
    is itself [None] for a message without text, and [price] holds what the
    text was read as. *)
Record fsm_data := mk_data {
  d_media_key : option string;
  d_category_id : option Z;
  d_name : option (option string);
  d_description : option (option string);
  d_price : option (option Z);
  d_product_type : option string
}.

Definition no_data : fsm_data := mk_data None None None None None None.

Record fsm_ctx := mk_ctx {
  fsm_state : option admin_state;
  fsm_data_of : fsm_data
}.

Definition no_ctx : fsm_ctx := mk_ctx None no_data.

(** The store, the settings tables and the conversation state of every
    (chat, user) pair, as MemoryStorage keeps it. *)
Record world := mk_world {
  w_db : db;
  w_settings : settings;
  w_fsm : gmap (Z * Z) fsm_ctx
}.

Definition init_world : world := mk_world init_db no_settings ∅.

Definition ctx_of (key : Z * Z) (w : world) : fsm_ctx :=
  match w_fsm w !! key with
  | Some ctx => ctx
  | None => no_ctx
  end.

Definition with_db (f : db → db) (w : world) : world :=
  mk_world (f (w_db w)) (w_settings w) (w_fsm w).

Definition with_settings (f : settings → settings) (w : world) : world :=
  mk_world (w_db w) (f (w_settings w)) (w_fsm w).

(** [state.clear()] *)
Definition state_clear (key : Z * Z) (w : world) : world :=
  mk_world (w_db w) (w_settings w) (delete key (w_fsm w)).

(** [state.set_state(st)] *)
Definition set_state (key : Z * Z) (st : admin_state) (w : world) : world :=
  mk_world (w_db w) (w_settings w)
           (<[key := mk_ctx (Some st) (fsm_data_of (ctx_of key w))]> (w_fsm w)).

(** [state.update_data(...)] *)
Definition update_data (key : Z * Z) (f : fsm_data → fsm_data) (w : world) : world :=
  mk_world (w_db w) (w_settings w)
           (<[key := mk_ctx (fsm_state (ctx_of key w)) (f (fsm_data_of (ctx_of key w)))]>
              (w_fsm w)).

(** What reaches the dispatcher: a message, or a callback query with its
    data. A callback comes with [int(callback.data.split("_")[1])] ([None]
    when it raises) and with the answers the processor would give to this
    handler's requests. *)
Inductive update :=
  | Message (m : message) (now : timestamp)
  | Callback (cb : callback) (data : string) (arg : option Z)
             (issued : http_reply invoice) (polled : http_reply (list invoice))
             (now : timestamp).

Definition sender (u : update) : Z :=
  match u with
  | Message m _ => msg_from_id m
  | Callback cb _ _ _ _ _ => from_user_id cb
  end.

Definition fsm_key (u : update) : Z * Z :=
  match u with
  | Message m _ => (msg_chat_id m, msg_from_id m)
  | Callback cb _ _ _ _ _ => (message_chat_id cb, from_user_id cb)
  end.

(** The handlers, by the names they have in the source. *)
Inductive handler :=
  | on_cmd_start | on_cmd_admin | on_text_shop | on_text_profile | on_text_about
  | on_text_support | on_process_media_file | on_process_broadcast
  | on_process_category_name | on_process_product_name | on_process_product_desc
  | on_process_product_price | on_process_product_content | on_process_product_file
  | on_process_shop_info
  | on_cb_main | on_cb_shop | on_cb_category | on_cb_product | on_cb_buy
  | on_cb_check_payment | on_cb_my_purchases | on_cb_admin_panel | on_cb_admin_stats
  | on_cb_admin_media | on_cb_setmedia | on_cb_delmedia | on_cb_admin_broadcast
  | on_cb_admin_categories | on_cb_addcat | on_cb_delcat | on_cb_admin_products
  | on_cb_admincat | on_cb_delprod | on_cb_addprod | on_cb_newprodcat | on_cb_prodtype
  | on_cb_admin_settings | on_cb_edit_shop_info | on_cancel_state.

Definition text_is (m : message) (t : string) : bool :=
  match msg_text m with
  | Some t' => String.eqb t' t
  | None => false
  end.

Definition in_state (st : option admin_state) (wanted : admin_state) : bool :=
  bool_decide (st = Some wanted).

(** The message handlers in the order they are registered; the first whose
    filters accept the message runs, and no other. *)
Definition route_message (m : message) (st : option admin_state) : option handler :=
  if msg_is_start m then Some on_cmd_start
  else if msg_is_admin m then Some on_cmd_admin
  else if text_is m "🛒 Купить" then Some on_text_shop
  else if text_is m "👤 Мой профиль" then Some on_text_profile
  else if text_is m "🏬 О шопе" then Some on_text_about
  else if text_is m "🛟 Поддержка" then Some on_text_support
  else if in_state st set_media_file && msg_is_media m then Some on_process_media_file
  else if in_state st broadcast_text then Some on_process_broadcast
  else if in_state st add_category_name then Some on_process_category_name
  else if in_state st add_product_name then Some on_process_product_name
  else if in_state st add_product_desc then Some on_process_product_desc
  else if in_state st add_product_price then Some on_process_product_price
  else if in_state st add_product_content then Some on_process_product_content
  else if in_state st add_product_file && bool_decide (is_Some (msg_document m))
    then Some on_process_product_file
  else if in_state st edit_shop_info then Some on_process_shop_info
  else None.

(** The callback handlers in the order they are registered. *)
Definition route_callback (data : string) (st : option admin_state) : option handler :=
  if String.eqb data "main" then Some on_cb_main
  else if String.eqb data "shop" then Some on_cb_shop
  else if String.prefix "cat_" data then Some on_cb_category
  else if String.prefix "prod_" data then Some on_cb_product
  else if String.prefix "buy_" data then Some on_cb_buy
  else if String.prefix "check_" data then Some on_cb_check_payment
  else if String.eqb data "my_purchases" then Some on_cb_my_purchases
  else if String.eqb data "admin_panel" then Some on_cb_admin_panel
  else if String.eqb data "admin_stats" then Some on_cb_admin_stats
  else if String.eqb data "admin_media" then Some on_cb_admin_media
  else if String.prefix "setmedia_" data then Some on_cb_setmedia
  else if String.prefix "delmedia_" data then Some on_cb_delmedia
  else if String.eqb data "admin_broadcast" then Some on_cb_admin_broadcast
  else if String.eqb data "admin_categories" then Some on_cb_admin_categories
  else if String.eqb data "addcat" then Some on_cb_addcat
  else if String.prefix "delcat_" data then Some on_cb_delcat
  else if String.eqb data "admin_products" then Some on_cb_admin_products
  else if String.prefix "admincat_" data then Some on_cb_admincat
  else if String.prefix "delprod_" data then Some on_cb_delprod
  else if String.eqb data "addprod" then Some on_cb_addprod
  else if String.prefix "newprodcat_" data then Some on_cb_newprodcat
  else if String.prefix "prodtype_" data && in_state st add_product_type
    then Some on_cb_prodtype
  else if String.eqb data "admin_settings" then Some on_cb_admin_settings
  else if String.eqb data "edit_shop_info" then Some on_cb_edit_shop_info
  else if bool_decide (data ∈ ["admin_panel"; "admin_media"; "admin_categories";
                               "admin_products"; "addprod"; "admin_settings"])
    then Some on_cancel_state
  else None.

Definition route (u : update) (w : world) : option handler :=
  match u with
  | Message m _ => route_message m (fsm_state (ctx_of (fsm_key u) w))
  | Callback _ data _ _ _ _ => route_callback data (fsm_state (ctx_of (fsm_key u) w))
  end.

(** [if callback.from_user.id not in ADMIN_IDS: return] *)
Definition is_admin (ADMIN_IDS : list Z) (user_id : Z) : bool :=
  bool_decide (user_id ∈ ADMIN_IDS).

(** [state.update_data(media_key=...)] and the like. *)
Definition put_media_key (v : string) (d : fsm_data) : fsm_data :=
  mk_data (Some v) (d_category_id d) (d_name d) (d_description d) (d_price d)
          (d_product_type d).

Definition put_category_id (v : Z) (d : fsm_data) : fsm_data :=
  mk_data (d_media_key d) (Some v) (d_name d) (d_description d) (d_price d)
          (d_product_type d).

Definition put_name (v : option string) (d : fsm_data) : fsm_data :=
  mk_data (d_media_key d) (d_category_id d) (Some v) (d_description d) (d_price d)
          (d_product_type d).

Definition put_description (v : option string) (d : fsm_data) : fsm_data :=
  mk_data (d_media_key d) (d_category_id d) (d_name d) (Some v) (d_price d)
          (d_product_type d).

Definition put_price (v : option Z) (d : fsm_data) : fsm_data :=
  mk_data (d_media_key d) (d_category_id d) (d_name d) (d_description d) (Some v)
          (d_product_type d).

Definition put_product_type (v : string) (d : fsm_data) : fsm_data :=
  mk_data (d_media_key d) (d_category_id d) (d_name d) (d_description d) (d_price d)
          (Some v).

(** The end of the add-product conversation: [add_product(data['category_id'],
    data['name'], data['description'], data['price'], ...)] and
    [state.clear()]. A missing key raises KeyError, and a NULL name or a
    NULL price fails its NOT NULL constraint: each of these leaves the world
    as it is, the conversation included. A NULL description is stored. *)
Definition new_product (key : Z * Z) (ptype : string) (pcontent pfile : option string)
    (now : timestamp) (w : world) : world :=
  let d := fsm_data_of (ctx_of key w) in
  match d_category_id d, d_name d, d_description d, d_price d with
  | Some cat_id, Some (Some pname), Some pdesc, Some (Some pprice) =>
      state_clear key
        (with_db (add_product cat_id pname pdesc pprice ptype pcontent pfile now) w)
  | _, _, _, _ => w
  end.

(** What a message handler does to the world. The messages a handler sends
    come after its writes in every one of them and are left out. *)
Definition handle_message (ADMIN_IDS : list Z) (h : handler) (m : message)
    (now : timestamp) (w : world) : world :=
  let key := (msg_chat_id m, msg_from_id m) in
  match h with
  | on_cmd_start =>
      with_db (add_user (msg_from_id m) (msg_username m) (msg_first_name m) now)
        (state_clear key w)
  | on_cmd_admin =>
      if is_admin ADMIN_IDS (msg_from_id m) then state_clear key w else w
  | on_process_media_file =>
      match media_of m with
      | Some (mtype, fid) =>
          state_clear key
            (with_settings
               (set_media (d_media_key (fsm_data_of (ctx_of key w))) mtype fid) w)
      | None => w
      end
  | on_process_broadcast => state_clear key w
  | on_process_category_name =>
      match msg_text m with
      | Some cname => state_clear key (with_db (add_category cname) w)
      | None => w
      end
  | on_process_product_name =>
      set_state key add_product_desc (update_data key (put_name (msg_text m)) w)
  | on_process_product_desc =>
      set_state key add_product_price
        (update_data key (put_description (msg_text m)) w)
  | on_process_product_price =>
      match msg_price m with
      | Some pprice =>
          set_state key add_product_type (update_data key (put_price pprice) w)
      | None => w
      end
  | on_process_product_content => new_product key "text" (msg_text m) None now w
  | on_process_product_file =>
      match msg_document m with
      | Some fid => new_product key "file" None (Some fid) now w
      | None => w
      end
  | on_process_shop_info =>
      state_clear key (with_settings (set_shop_setting "shop_info" (msg_text m)) w)
  | _ => w
  end.

(** What a callback handler does to the world. *)
Definition handle_callback (ADMIN_IDS : list Z) (h : handler) (cb : callback)
    (data : string) (arg : option Z) (issued : http_reply invoice)
    (polled : http_reply (list invoice)) (now : timestamp) (w : world) : world :=
  let key := (message_chat_id cb, from_user_id cb) in
  let admin := is_admin ADMIN_IDS (from_user_id cb) in
  match h with
  | on_cb_main => state_clear key w
  | on_cb_buy =>
      match arg with
      | Some prod_id =>
          with_db (λ s, store (run (cb_buy cb prod_id issued now) s)) w
      | None => w
      end
  | on_cb_check_payment =>
      match data_arg data with
      | Some inv =>
          with_db (λ s, store (run (cb_check_payment ADMIN_IDS cb inv polled now) s)) w
      | None => w
      end
  | on_cb_admin_panel => if admin then state_clear key w else w
  | on_cb_setmedia =>
      if admin then
        set_state key set_media_file
          (update_data key (put_media_key (remove_all "setmedia_" data)) w)
      else w
  | on_cb_delmedia =>
      if admin then
        state_clear key (with_settings (delete_media (remove_all "delmedia_" data)) w)
      else w
  | on_cb_admin_broadcast =>
      if admin then set_state key broadcast_text w else w
  | on_cb_addcat =>
      if admin then set_state key add_category_name w else w
  | on_cb_delcat =>
      if admin then
        match arg with
        | Some cat_id => with_db (delete_category cat_id) w
        | None => w
        end
      else w
  | on_cb_delprod =>
      if admin then
        match arg with
        | Some prod_id => with_db (delete_product prod_id) w
        | None => w
        end
      else w
  | on_cb_newprodcat =>
      if admin then
        match arg with
        | Some cat_id =>
            set_state key add_product_name (update_data key (put_category_id cat_id) w)
        | None => w
        end
      else w
  | on_cb_prodtype =>
      match data_arg data with
      | Some prod_type =>
          let w1 := update_data key (put_product_type prod_type) w in
          if String.eqb prod_type "text" then set_state key add_product_content w1
          else set_state key add_product_file w1
      | None => w
      end
  | on_cb_edit_shop_info =>
      if admin then set_state key edit_shop_info w else w
  | on_cancel_state =>
      if bool_decide (is_Some (fsm_state (ctx_of key w))) then state_clear key w
      else w
  | _ => w
  end.

(** One update through the dispatcher: the handler the router picks runs;
    an update no handler accepts changes nothing. *)
Definition step (ADMIN_IDS : list Z) (u : update) (w : world) : world :=
  match route u w with
  | None => w
  | Some h =>
      match u with
      | Message m now => handle_message ADMIN_IDS h m now w
      | Callback cb data arg issued polled now =>
          handle_callback ADMIN_IDS h cb data arg issued polled now w
      end
  end.

Definition steps (ADMIN_IDS : list Z) (us : list update) (w : world) : world :=
  foldl (λ w u, step ADMIN_IDS u w) w us.

(** Only administrators are in a conversation. *)
Definition conversations_of_admins (ADMIN_IDS : list Z) (w : world) : Prop :=
  ∀ key ctx, w_fsm w !! key = Some ctx → is_Some (fsm_state ctx) → key.2 ∈ ADMIN_IDS.

(** The handlers whose filters ask for a conversation state. *)
Definition needs_state (h : handler) : bool :=
  match h with
  | on_process_media_file | on_process_broadcast | on_process_category_name
  | on_process_product_name | on_process_product_desc | on_process_product_price
  | on_process_product_content | on_process_product_file | on_process_shop_info
  | on_cb_prodtype => true
  | _ => false
  end.

(** Whether a character occurs in a string. *)
Fixpoint occurs (c : Ascii.ascii) (s : string) : bool :=
  match s with
  | EmptyString => false
  | String c' s' => Ascii.eqb c' c || occurs c s'
  end.

(** The four texts of the reply keyboard. *)
Definition menu_texts : list string :=
  ["🛒 Купить"; "👤 Мой профиль"; "🏬 О шопе"; "🛟 Поддержка"].

(** [m] is a message of the user behind the callback [cb], in the chat of
    that callback, with the text [t]; the command filters do not accept it
    and [t] is none of the four texts of the reply keyboard. *)
Definition plain_text_of (cb : callback) (t : string) (m : message) : Prop :=
  msg_chat_id m = message_chat_id cb ∧ msg_from_id m = from_user_id cb ∧
  msg_is_start m = false ∧ msg_is_admin m = false ∧
  msg_text m = Some t ∧ t ∉ menu_texts.

(** * Properties *)

(** ** Running a handler *)

Lemma exec_await {A X : Type} (a : action X) (k : X → prog A) faults s :
  exec (Await a k) faults s =
  if hd false faults then
    match failed a with
    | Ok x => exec (k x) (tl faults) s
    | Err e => mk_outcome (Err e) s []
    end
  else also (perform a s).2 (exec (k (perform a s).1.1) (tl faults) (perform a s).1.2).
Proof. simpl. destruct (hd false faults); [done|]. by destruct (perform a s) as [[x s'] l]. Qed.

Lemma delivers_app l1 l2 : delivers (l1 ++ l2) = delivers l1 || delivers l2.
Proof. apply existsb_app. Qed.

(** Step through the next awaited call of the handler under its fault flag. *)
Ltac norm := unfold await, delivers; cbn -[exec].

Ltac await_step :=
  norm; rewrite exec_await; cbn [failed perform fst snd also result store sent];
  match goal with
  | |- context [hd false ?fs] => destruct (hd false fs)
  end; cbn [result store sent app also existsb is_delivery orb].

(** The alerts to the administrators touch nothing and cannot fail. *)
Lemma exec_notify_admins ADMIN_IDS t faults s :
  result (exec (notify_admins ADMIN_IDS t) faults s) = Ok tt ∧
  store (exec (notify_admins ADMIN_IDS t) faults s) = s ∧
  delivers (sent (exec (notify_admins ADMIN_IDS t) faults s)) = false.
Proof.
  revert faults. induction ADMIN_IDS as [|a l IH]; intros faults; [done|].
  norm. await_step; norm; apply IH.
Qed.

(** [deliver] touches nothing. *)
Lemma exec_deliver_then {A : Type} cb product (k : prog A) faults s :
  (∀ faults', store (exec k faults' s) = s) →
  store (exec (deliver cb product;; k) faults s) = s.
Proof.
  intros Hk. unfold deliver.
  destruct (String.eqb (product_type product) "text"); norm.
  - await_step; [done|]. apply Hk.
  - await_step; [done|]. await_step; [done|]. apply Hk.
Qed.

(** Whatever fails and wherever, a payment check leaves the store as it was,
    or with the payment flipped to paid, or with the payment flipped and the
    purchase recorded. *)
Lemma check_store_cases ADMIN_IDS cb inv reply now faults s :
  let o := exec (cb_check_payment ADMIN_IDS cb inv reply now) faults s in
  (store o = s ∧ delivers (sent o) = false) ∨
  (∃ pay, pending (get_payment inv s) = Some pay ∧
     store o = update_payment_status inv "paid" s ∧ delivers (sent o) = false) ∨
  (∃ pay, pending (get_payment inv s) = Some pay ∧
     store o = add_purchase (from_user_id cb) (payment_product_id pay)
                 (amount pay) now (update_payment_status inv "paid" s)).
Proof.
  unfold cb_check_payment, check_invoice. norm.
  await_step; [by left|].
  destruct reply as [|st body]; norm; [by left|].
  destruct (env_ok body); norm; [|await_step; by left].
  destruct (env_result body) as [items|]; norm; [|by left].
  destruct (head items) as [i|]; norm; [|await_step; by left].
  destruct (String.eqb (inv_status i) "paid"); norm; [|await_step; by left].
  await_step; [by left|].
  destruct (pending (get_payment inv s)) as [pay|] eqn:Hpay; norm;
    [|await_step; by left].
  await_step; [by left|].
  await_step; [right; left; by exists pay|].
  await_step; [right; left; by exists pay|].
  right; right. exists pay. split; [done|].
  destruct (get_product _ _) as [product|]; norm; [|done].
  apply (exec_deliver_then cb product). intros f. apply exec_notify_admins.
Qed.

Lemma pending_Some payment pay :
  pending payment = Some pay ↔ payment = Some pay ∧ status pay = "pending".
Proof.
  unfold pending. destruct payment as [p|]; [|split; [done|by intros [? _]]].
  destruct (String.eqb (status p) "pending") eqn:E.
  - apply String.eqb_eq in E. split; [by intros [= ->]|by intros [[= ->] _]].
  - apply String.eqb_neq in E. split; [done|by intros [[= ->] ?]].
Qed.

Lemma pending_paid payment pay :
  payment = Some pay → status pay = "paid" → pending payment = None.
Proof. intros -> H. unfold pending. by rewrite H. Qed.

(** What [check_invoice] hands to the handler, by the shape of the answer. *)
Lemma run_check_invoice reply s :
  run (check_invoice reply) s =
  mk_outcome
    match reply with
    | TransportFailure => Err ClientError
    | Reply _ body =>
        if env_ok body then
          match env_result body with
          | Some items => Ok (head items)
          | None => Err KeyError
          end
        else Ok None
    end s [].
Proof.
  unfold run, check_invoice, await. destruct reply as [|st body]; [done|].
  cbn. destruct (env_ok body); [|done]. by destruct (env_result body).
Qed.

(** ** The gateway does not report paid: nothing changes *)

(** C8, as the code has it. When the poll of the processor fails, or reports
    a status other than paid, the payment check changes nothing in the store
    (no payment row, no purchase row, no user counter) and delivers nothing,
    whatever else fails; it ends with the exception of the failed transport,
    with the check-error alert when the processor gave no invoice, and with
    the payment-not-found alert when the invoice is not paid. *)
Theorem check_unpaid_changes_nothing ADMIN_IDS cb inv reply now s :
  (∀ i, result (run (check_invoice reply) s) = Ok (Some i) → inv_status i ≠ "paid") →
  (∀ faults,
     store (exec (cb_check_payment ADMIN_IDS cb inv reply now) faults s) = s ∧
     delivers (sent (exec (cb_check_payment ADMIN_IDS cb inv reply now) faults s)) = false) ∧
  run (cb_check_payment ADMIN_IDS cb inv reply now) s =
    match result (run (check_invoice reply) s) with
    | Err e => mk_outcome (Err e) s []
    | Ok None =>
        mk_outcome (Ok tt) s [answer (from_user_id cb) (Some CheckErrorText)]
    | Ok (Some _) =>
        mk_outcome (Ok tt) s [answer (from_user_id cb) (Some PaymentNotFoundText)]
    end.
Proof.
  rewrite run_check_invoice. cbn [result]. intros Hunpaid.
  assert (Hstatus : ∀ i, String.eqb (inv_status i) "paid" = true →
            match reply with
            | TransportFailure => Err ClientError
            | Reply _ body =>
                if env_ok body then
                  match env_result body with
                  | Some items => Ok (head items)
                  | None => Err KeyError
                  end
                else Ok None
            end = Ok (Some i) → False).
  { intros i E H. apply String.eqb_eq in E. by apply (Hunpaid i). }
  clear Hunpaid. split.
  - intros faults. unfold cb_check_payment, check_invoice. norm.
    await_step; [done|].
    destruct reply as [|st body]; norm; [done|].
    destruct (env_ok body); norm; [|by await_step].
    destruct (env_result body) as [items|]; norm; [|done].
    destruct (head items) as [i|]; norm; [|by await_step].
    destruct (String.eqb (inv_status i) "paid") eqn:E; norm; [|by await_step].
    by destruct (Hstatus i E).
  - unfold run, cb_check_payment, check_invoice, await.
    destruct reply as [|st body]; cbn; [done|].
    destruct (env_ok body); cbn; [|done].
    destruct (env_result body) as [items|]; cbn; [|done].
    destruct (head items) as [i|]; cbn; [|done].
    destruct (String.eqb (inv_status i) "paid") eqn:E; cbn; [|done].
    by destruct (Hstatus i E).
Qed.

Lemma check_unpaid_changes_nothing_witness :
  let reply := Reply 200 (mk_envelope true (Some [mk_invoice 77 "active" "u"]) None) in
  let cb := mk_callback 1 (Some "alice") 1 in
  let s := save_payment 1 1 "77" 999 "t1" init_db in
  (∀ i, result (run (check_invoice reply) s) = Ok (Some i) → inv_status i ≠ "paid") ∧
  ((∀ faults,
      store (exec (cb_check_payment [9] cb "77" reply "t2") faults s) = s ∧
      delivers (sent (exec (cb_check_payment [9] cb "77" reply "t2") faults s)) = false) ∧
   run (cb_check_payment [9] cb "77" reply "t2") s =
     match result (run (check_invoice reply) s) with
     | Err e => mk_outcome (Err e) s []
     | Ok None =>
         mk_outcome (Ok tt) s [answer (from_user_id cb) (Some CheckErrorText)]
     | Ok (Some _) =>
         mk_outcome (Ok tt) s [answer (from_user_id cb) (Some PaymentNotFoundText)]
     end).
Proof.
  intros reply cb s.
  assert (H : ∀ i, result (run (check_invoice reply) s) = Ok (Some i) →
                inv_status i ≠ "paid").
  { intros i Hi. vm_compute in Hi. injection Hi as <-. discriminate. }
  split; [exact H|]. exact (check_unpaid_changes_nothing [9] cb "77" reply "t2" s H).
Defined.

(** C8 as stated fails in the outcome it names: a poll that fails is not
    answered as not yet paid. When the transport fails the handler ends with
    the exception of the HTTP client and tells the user nothing; when the
    answer of the processor is not marked ok the user is told of a check
    error; only an invoice that is there and is not paid gives the
    try-later answer. The store is the same after all three. *)
Lemma failed_poll_is_not_answered_as_unpaid :
  let cb := mk_callback 1 (Some "alice") 1 in
  let s := save_payment 1 1 "77" 999 "t1" init_db in
  let check reply := run (cb_check_payment [9] cb "77" reply "t2") s in
  check TransportFailure = mk_outcome (Err ClientError) s [] ∧
  check (Reply 503 (mk_envelope false None None)) =
    mk_outcome (Ok tt) s [answer 1 (Some CheckErrorText)] ∧
  check (Reply 200 (mk_envelope true (Some [mk_invoice 77 "active" "u"]) None)) =
    mk_outcome (Ok tt) s [answer 1 (Some PaymentNotFoundText)].
Proof. repeat split; reflexivity. Qed.

(** ** A payment that is already paid: the check is idempotent *)

(** C2. Once the payment of an invoice is paid, a further payment check
    changes nothing in the store (no purchase row is appended and the
    counters of every user stay as they are) and delivers nothing, whatever
    the processor answers and whatever fails; when the processor reports the
    invoice paid, the check ends with the already-issued alert alone. *)
Theorem check_paid_is_idempotent ADMIN_IDS cb inv reply now s pay :
  get_payment inv s = Some pay →
  status pay = "paid" →
  (∀ faults,
     store (exec (cb_check_payment ADMIN_IDS cb inv reply now) faults s) = s ∧
     delivers (sent (exec (cb_check_payment ADMIN_IDS cb inv reply now) faults s)) = false) ∧
  (∀ i, result (run (check_invoice reply) s) = Ok (Some i) →
        inv_status i = "paid" →
        run (cb_check_payment ADMIN_IDS cb inv reply now) s =
        mk_outcome (Ok tt) s [answer (from_user_id cb) (Some AlreadyIssuedText)]).
Proof.
  intros Hpay Hpaid.
  pose proof (pending_paid _ _ Hpay Hpaid) as Hnone. split.
  - intros faults.
    destruct (check_store_cases ADMIN_IDS cb inv reply now faults s)
      as [H|[(p & Hp & _)|(p & Hp & _)]]; [exact H| |]; congruence.
  - intros i. rewrite run_check_invoice. cbn [result]. intros Hi Hst.
    unfold run, cb_check_payment, check_invoice, await.
    destruct reply as [|st body]; [done|]. cbn in *.
    destruct (env_ok body); [|done].
    destruct (env_result body) as [items|]; [|done].
    injection Hi as ->. cbn. rewrite Hst. cbn. by rewrite Hnone.
Qed.

Lemma check_paid_is_idempotent_witness :
  let reply := Reply 200 (mk_envelope true (Some [mk_invoice 77 "paid" "u"]) None) in
  let cb := mk_callback 1 (Some "alice") 1 in
  let pay := mk_payment 1 1 1 "77" 999 "paid" "t1" in
  let s := update_payment_status "77" "paid" (save_payment 1 1 "77" 999 "t1" init_db) in
  get_payment "77" s = Some pay ∧ status pay = "paid" ∧
  (∀ faults,
     store (exec (cb_check_payment [9] cb "77" reply "t2") faults s) = s ∧
     delivers (sent (exec (cb_check_payment [9] cb "77" reply "t2") faults s)) = false) ∧
  (∀ i, result (run (check_invoice reply) s) = Ok (Some i) →
        inv_status i = "paid" →
        run (cb_check_payment [9] cb "77" reply "t2") s =
        mk_outcome (Ok tt) s [answer (from_user_id cb) (Some AlreadyIssuedText)]).
Proof.
  intros reply cb pay s.
  assert (H1 : get_payment "77" s = Some pay) by reflexivity.
  assert (H2 : status pay = "paid") by reflexivity.
  split; [exact H1|]. split; [exact H2|].
  exact (check_paid_is_idempotent [9] cb "77" reply "t2" s pay H1 H2).
Defined.

(** ** Creating an invoice *)

(** C9, as the code has it. Every answer of the processor that is not marked
    ok gives the same result: [create_invoice] returns [None] whatever the
    HTTP status and the error of the envelope are, and [cb_buy] then sends
    the one payment-creation alert and saves no payment. Only a failed
    transport ends differently, with the exception of the HTTP client. *)
Theorem create_invoice_failures_collapse cb prod_id product st body now s :
  env_ok body = false →
  get_product prod_id s = Some product →
  run (create_invoice (Reply st body)) s = mk_outcome (Ok None) s [] ∧
  run (cb_buy cb prod_id (Reply st body) now) s =
    mk_outcome (Ok tt) s [answer (from_user_id cb) (Some CreateErrorText)] ∧
  run (create_invoice TransportFailure) s = mk_outcome (Err ClientError) s [].
Proof.
  intros Hok Hprod. unfold run, cb_buy, create_invoice, await. cbn.
  rewrite Hprod, ?Hok. cbn. by rewrite ?Hok.
Qed.

Lemma create_invoice_failures_collapse_witness :
  let cb := mk_callback 1 (Some "alice") 1 in
  let body := mk_envelope false None (Some "AMOUNT_INVALID") in
  let product := mk_product 1 "key" (Some "d") 999 "text" (Some "SECRET") None 1 "t0" in
  let s := add_product 1 "key" (Some "d") 999 "text" (Some "SECRET") None "t0" init_db in
  env_ok body = false ∧ get_product 1 s = Some product ∧
  run (create_invoice (Reply 400 body)) s = mk_outcome (Ok None) s [] ∧
  run (cb_buy cb 1 (Reply 400 body) "t1") s =
    mk_outcome (Ok tt) s [answer (from_user_id cb) (Some CreateErrorText)] ∧
  run (create_invoice TransportFailure) s = mk_outcome (Err ClientError) s [].
Proof.
  intros cb body product s.
  assert (H1 : env_ok body = false) by reflexivity.
  assert (H2 : get_product 1 s = Some product) by reflexivity.
  split; [exact H1|]. split; [exact H2|].
  exact (create_invoice_failures_collapse cb 1 product 400 body "t1" s H1 H2).
Defined.

(** C9 as stated fails: an unavailable gateway (HTTP 503, no error named)
    and a logical refusal (HTTP 400, AMOUNT_INVALID) give the caller the very
    same result, so the two failure modes are not told apart. *)
Lemma create_invoice_does_not_distinguish :
  run (create_invoice (Reply 503 (mk_envelope false None None))) init_db =
  run (create_invoice (Reply 400 (mk_envelope false None (Some "AMOUNT_INVALID")))) init_db ∧
  result (run (create_invoice (Reply 400 (mk_envelope false None (Some "AMOUNT_INVALID")))) init_db)
  = Ok None.
Proof. split; reflexivity. Qed.

(** ** The payment ledger and its invoice ids *)

Lemma find_app_first {A : Type} (f : A → bool) (l l' : list A) :
  find f (l ++ l') = match find f l with Some x => Some x | None => find f l' end.
Proof. induction l as [|a l IH]; [done|]. simpl. by destruct (f a). Qed.

Lemma get_payment_is_Some inv s :
  inv ∈ invoice_ids s ↔ is_Some (get_payment inv s).
Proof.
  unfold invoice_ids, get_payment. induction (payments s) as [|p l IH]; simpl.
  - split; [by intros ?%elem_of_nil|by intros [? ?]].
  - rewrite elem_of_cons, IH. destruct (String.eqb (invoice_id p) inv) eqn:E.
    + apply String.eqb_eq in E. split; [by eexists|by left].
    + apply String.eqb_neq in E. split; [by intros [?|?]|by right].
Qed.

Lemma get_payment_save_payment inv' user_id product_id inv amt now s :
  get_payment inv' (save_payment user_id product_id inv amt now s) =
  match get_payment inv' s with
  | Some old => Some old
  | None =>
      find (λ p, String.eqb (invoice_id p) inv')
        [mk_payment (Z.of_nat (length (payments s)) + 1) user_id product_id inv
                    amt "pending" now]
  end.
Proof.
  unfold get_payment, save_payment, with_payments. cbn [payments].
  apply find_app_first.
Qed.

(** C5, as the code has it. Recording a payment under an invoice id that is
    already in the ledger succeeds: a new pending row is appended after the
    rows that were there, none of which changes; looking the invoice up
    still gives the earlier row, and no other table is touched: users,
    categories, products and purchases, and the AUTOINCREMENT counters of
    categories and products, are as before. *)
Theorem save_payment_duplicate_appends user_id product_id inv amt now s :
  inv ∈ invoice_ids s →
  let s' := save_payment user_id product_id inv amt now s in
  payments s' =
    payments s ++ [mk_payment (Z.of_nat (length (payments s)) + 1) user_id
                              product_id inv amt "pending" now] ∧
  is_Some (get_payment inv s) ∧
  get_payment inv s' = get_payment inv s ∧
  users s' = users s ∧ products s' = products s ∧ purchases s' = purchases s ∧
  categories s' = categories s ∧ seq_categories s' = seq_categories s ∧
  seq_products s' = seq_products s.
Proof.
  intros Hin%get_payment_is_Some s'. split; [done|]. split; [done|].
  split; [|done]. unfold s'. rewrite get_payment_save_payment.
  by destruct Hin as [old ->].
Qed.

Lemma save_payment_duplicate_appends_witness :
  let s := save_payment 1 1 "77" 999 "t1" init_db in
  let s' := save_payment 2 3 "77" 500 "t2" s in
  "77" ∈ invoice_ids s ∧
  payments s' =
    payments s ++ [mk_payment (Z.of_nat (length (payments s)) + 1) 2 3 "77" 500
                              "pending" "t2"] ∧
  is_Some (get_payment "77" s) ∧
  get_payment "77" s' = get_payment "77" s ∧
  users s' = users s ∧ products s' = products s ∧ purchases s' = purchases s ∧
  categories s' = categories s ∧ seq_categories s' = seq_categories s ∧
  seq_products s' = seq_products s.
Proof.
  intros s s'.
  assert (H : "77" ∈ invoice_ids s) by (vm_compute; apply list_elem_of_here).
  split; [exact H|]. exact (save_payment_duplicate_appends 2 3 "77" 500 "t2" s H).
Defined.

(** C5 as stated fails: [save_payment] under an invoice id that is already
    recorded does mutate the ledger, which then holds two rows. *)
Lemma save_payment_duplicate_is_inserted :
  let s := save_payment 1 1 "77" 999 "t1" init_db in
  "77" ∈ invoice_ids s ∧
  payments (save_payment 2 3 "77" 500 "t2" s) ≠ payments s ∧
  length (payments (save_payment 2 3 "77" 500 "t2" s)) = 2%nat.
Proof.
  split; [vm_compute; apply list_elem_of_here|]. split; [discriminate|reflexivity].
Qed.

Lemma invoice_ids_update_payment_status inv st s :
  invoice_ids (update_payment_status inv st s) = invoice_ids s.
Proof.
  unfold invoice_ids, update_payment_status. cbn.
  induction (payments s) as [|p l IH]; [done|]. cbn. rewrite IH. f_equal.
  by destruct (String.eqb (invoice_id p) inv).
Qed.

Lemma run_cb_buy_store cb prod_id reply now s :
  store (run (cb_buy cb prod_id reply now) s) =
  match get_product prod_id s, result (run (create_invoice reply) s) with
  | Some product, Ok (Some i) =>
      save_payment (from_user_id cb) prod_id (str (inv_invoice_id i))
                   (price product) now s
  | _, _ => s
  end.
Proof.
  unfold run, cb_buy, create_invoice, await. cbn.
  destruct (get_product prod_id s) as [product|]; [|done]. cbn.
  destruct reply as [|st body]; [done|]. cbn.
  destruct (env_ok body); [|done]. by destruct (env_result body).
Qed.

Lemma invoice_ids_save_payment user_id product_id inv amt now s :
  invoice_ids (save_payment user_id product_id inv amt now s) = invoice_ids s ++ [inv].
Proof. unfold invoice_ids, save_payment. cbn. by rewrite fmap_app. Qed.

Lemma invoice_ids_add_purchase user_id product_id pprice now s :
  invoice_ids (add_purchase user_id product_id pprice now s) = invoice_ids s.
Proof. reflexivity. Qed.

Lemma NoDup_snoc_fresh (l : list string) (x : string) :
  NoDup l → x ∉ l → NoDup (l ++ [x]).
Proof.
  intros Hl Hx. apply NoDup_app. split; [done|]. split; [|apply NoDup_singleton].
  intros y Hy ->%list_elem_of_singleton. by apply Hx.
Qed.

Lemma apply_op_unique_invoice_ids o s :
  NoDup (invoice_ids s) → fresh_op o s → NoDup (invoice_ids (apply_op o s)).
Proof.
  intros Hs Hfresh. destruct o; cbn [apply_op fresh_op] in *; try done.
  - unfold add_user. by destruct (users s !! user_id).
  - rewrite invoice_ids_save_payment. by apply NoDup_snoc_fresh.
  - by rewrite invoice_ids_update_payment_status.
  - rewrite run_cb_buy_store. destruct (get_product prod_id s); [|done].
    destruct (result (run (create_invoice reply) s)) as [[i|]|]; try done.
    rewrite invoice_ids_save_payment. by apply NoDup_snoc_fresh.
  - unfold run.
    destruct (check_store_cases ADMIN_IDS cb inv reply now [] s)
      as [[-> _]|[(p & _ & -> & _)|(p & _ & ->)]]; [done| |];
      by rewrite ?invoice_ids_add_purchase, invoice_ids_update_payment_status.
Qed.

(** C6, as the code has it. From a ledger whose invoice ids are pairwise
    distinct, every sequence of operations in which each new payment row
    comes under an invoice id not yet in the ledger leaves the invoice ids
    pairwise distinct; in particular from the empty store of [init_db]. *)
Theorem unique_invoice_ids_when_fresh ops s :
  NoDup (invoice_ids s) →
  fresh_ops ops s →
  NoDup (invoice_ids (apply_ops ops s)).
Proof.
  revert s. induction ops as [|o ops IH]; intros s Hs Hfresh; [done|].
  destruct Hfresh as [Ho Hops]. cbn. apply IH; [|done].
  by apply apply_op_unique_invoice_ids.
Qed.

(** Refute the membership of a concrete value in a concrete list. *)
Ltac absent :=
  let H := fresh "Hin" in
  intros H; vm_compute in H;
  repeat (apply elem_of_cons in H as [H|H]; [discriminate H|]);
  by apply elem_of_nil in H.

Lemma unique_invoice_ids_when_fresh_witness :
  let cb := mk_callback 1 (Some "alice") 1 in
  let issued := Reply 200 (mk_envelope true (Some (mk_invoice 77 "active" "u")) None) in
  let paid := Reply 200 (mk_envelope true (Some [mk_invoice 77 "paid" "u"]) None) in
  let ops :=
    [OpAddUser 1 (Some "alice") "A" "t";
     OpAddCategory "keys";
     OpAddProduct 1 "key" (Some "d") 999 "text" (Some "SECRET") None "t0";
     OpBuy cb 1 issued "t1";
     OpSavePayment 2 1 "78" 999 "t2";
     OpCheck [9] cb "77" paid "t3"] in
  NoDup (invoice_ids init_db) ∧ fresh_ops ops init_db ∧
  NoDup (invoice_ids (apply_ops ops init_db)).
Proof.
  intros cb issued paid ops.
  assert (H1 : NoDup (invoice_ids init_db)) by apply NoDup_nil_2.
  assert (H2 : fresh_ops ops init_db).
  { repeat split; try exact I; absent. }
  split; [exact H1|]. split; [exact H2|].
  exact (unique_invoice_ids_when_fresh ops init_db H1 H2).
Defined.

(** C6 as stated fails: recording two payments under one invoice id is
    accepted, and the ledger then holds the id twice. *)
Lemma invoice_ids_can_repeat :
  ¬ NoDup (invoice_ids (apply_ops [OpSavePayment 1 1 "77" 999 "t1";
                                   OpSavePayment 2 1 "77" 999 "t2"] init_db)).
Proof.
  intros H. vm_compute in H. inversion H as [|x l Hx Hl]. apply Hx.
  apply list_elem_of_here.
Qed.

(** ** Fault-free runs, compositionally *)

Lemma also_also {A : Type} l1 l2 (o : outcome A) :
  also l1 (also l2 o) = also (l1 ++ l2) o.
Proof. unfold also. cbn. by rewrite app_assoc. Qed.

Lemma also_nil {A : Type} (o : outcome A) : also [] o = o.
Proof. by destruct o. Qed.

Lemma run_bind {A B : Type} (p : prog A) (f : A → prog B) s :
  run (p ≫= f) s =
  match result (run p s) with
  | Ok a => also (sent (run p s)) (run (f a) (store (run p s)))
  | Err e => mk_outcome (Err e) (store (run p s)) (sent (run p s))
  end.
Proof.
  unfold run. revert s. induction p as [a|e|X a k IH]; intros s.
  - cbn. by rewrite also_nil.
  - done.
  - cbn. destruct (perform a s) as [[x s'] l]. cbn.
    change (prog_bind f (k x)) with (k x ≫= f). rewrite IH.
    destruct (result (exec (k x) [] s')); cbn; [|done].
    by rewrite also_also.
Qed.

Lemma run_deliver cb product s :
  run (deliver cb product) s = mk_outcome (Ok tt) s (delivery cb product).
Proof.
  unfold run, deliver, delivery, await.
  by destruct (String.eqb (product_type product) "text").
Qed.

Lemma delivers_delivery cb product : delivers (delivery cb product) = true.
Proof. unfold delivery. by destruct (String.eqb (product_type product) "text"). Qed.

Lemma run_notify_admins ADMIN_IDS t s :
  run (notify_admins ADMIN_IDS t) s = mk_outcome (Ok tt) s (alerts ADMIN_IDS t).
Proof.
  unfold run. induction ADMIN_IDS as [|a l IH]; [done|].
  cbn -[exec]. unfold await. cbn. change (exec ?p [] s) with (run p s).
  unfold run. by rewrite IH.
Qed.

(** The check that wins: the processor reports the invoice paid and the
    ledger holds it pending. *)
Lemma run_check_wins ADMIN_IDS cb inv reply now s i pay :
  result (run (check_invoice reply) s) = Ok (Some i) →
  inv_status i = "paid" →
  pending (get_payment inv s) = Some pay →
  let s' := add_purchase (from_user_id cb) (payment_product_id pay) (amount pay)
              now (update_payment_status inv "paid" s) in
  run (cb_check_payment ADMIN_IDS cb inv reply now) s =
  match get_product (payment_product_id pay) s with
  | Some product =>
      mk_outcome (Ok tt) s'
        (delivery cb product ++
         alerts ADMIN_IDS
           (NewPurchaseText (from_username cb) (name product) (amount pay)))
  | None => mk_outcome (Err TypeError) s' []
  end.
Proof.
  intros Hi Hst Hpay s'. rewrite run_check_invoice in Hi. cbn in Hi.
  unfold run, cb_check_payment, check_invoice, await.
  destruct reply as [|st body]; [done|]. cbn.
  destruct (env_ok body); [|done].
  destruct (env_result body) as [items|]; [|done].
  injection Hi as ->. cbn. rewrite Hst. cbn. rewrite Hpay. cbn.
  rewrite !also_nil.
  change (get_product (payment_product_id pay) (update_payment_status inv "paid" s))
    with (get_product (payment_product_id pay) s).
  destruct (get_product (payment_product_id pay) s) as [product|]; [|done].
  change (exec ?p [] ?t) with (run p t). cbn [subscript mbind prog_mbind prog_bind].
  change (prog_bind ?f ?p) with (p ≫= f).
  rewrite run_bind, run_deliver. cbn [result store sent].
  by rewrite run_notify_admins.
Qed.

Lemma get_payment_update_payment_status inv st s :
  get_payment inv (update_payment_status inv st s) = set_status st <$> get_payment inv s.
Proof.
  unfold get_payment, update_payment_status, with_payments. cbn [payments].
  induction (payments s) as [|p l IH]; [done|]. cbn [map find].
  destruct (String.eqb (invoice_id p) inv) eqn:E; cbn [invoice_id set_status];
    rewrite E; [done|apply IH].
Qed.

(** ** The check that wins *)

(** C4, as the code has it. When a payment check wins the transition of a
    pending payment whose product row is still there, the purchase row it
    appends carries the id of the user who pressed the button, the product
    id of the payment and the amount the payment snapshotted; the product is
    shown in the message that carries the button or sent as a document to
    that same user, and the payment is then paid. The user of the purchase
    row is the user of the payment when that user is the one who checks. *)
Theorem winning_check_records_requester ADMIN_IDS cb inv reply now s i pay product :
  result (run (check_invoice reply) s) = Ok (Some i) →
  inv_status i = "paid" →
  get_payment inv s = Some pay →
  status pay = "pending" →
  get_product (payment_product_id pay) s = Some product →
  let o := run (cb_check_payment ADMIN_IDS cb inv reply now) s in
  result o = Ok tt ∧
  purchases (store o) =
    purchases s ++ [mk_purchase (Z.of_nat (length (purchases s)) + 1)
                      (from_user_id cb) (payment_product_id pay) (amount pay) now] ∧
  sent o =
    delivery cb product ++
    alerts ADMIN_IDS (NewPurchaseText (from_username cb) (name product) (amount pay)) ∧
  status <$> get_payment inv (store o) = Some "paid" ∧
  (from_user_id cb = payment_user_id pay →
   purchase_user_id <$> last (purchases (store o)) = Some (payment_user_id pay)).
Proof.
  intros Hi Hst Hpay Hpending Hprod o.
  assert (Hp : pending (get_payment inv s) = Some pay) by by apply pending_Some.
  unfold o. rewrite (run_check_wins _ _ _ _ _ _ _ _ Hi Hst Hp), Hprod.
  cbn [result store sent]. split; [done|]. split; [done|]. split; [done|]. split.
  - change (get_payment inv (add_purchase ?u ?p ?a ?t ?s0)) with (get_payment inv s0).
    by rewrite get_payment_update_payment_status, Hpay.
  - intros <-. cbn. by rewrite last_snoc.
Qed.

Lemma winning_check_records_requester_witness :
  let cb := mk_callback 1 (Some "alice") 1 in
  let reply := Reply 200 (mk_envelope true (Some [mk_invoice 77 "paid" "u"]) None) in
  let i := mk_invoice 77 "paid" "u" in
  let pay := mk_payment 1 1 1 "77" 999 "pending" "t1" in
  let product := mk_product 1 "key" (Some "d") 999 "text" (Some "SECRET") None 1 "t0" in
  let s := save_payment 1 1 "77" 999 "t1"
             (add_product 1 "key" (Some "d") 999 "text" (Some "SECRET") None "t0"
                (add_user 1 (Some "alice") "A" "t" init_db)) in
  let o := run (cb_check_payment [9] cb "77" reply "t2") s in
  (result (run (check_invoice reply) s) = Ok (Some i) ∧ inv_status i = "paid" ∧
   get_payment "77" s = Some pay ∧ status pay = "pending" ∧
   get_product (payment_product_id pay) s = Some product) ∧
  result o = Ok tt ∧
  purchases (store o) =
    purchases s ++ [mk_purchase (Z.of_nat (length (purchases s)) + 1)
                      (from_user_id cb) (payment_product_id pay) (amount pay) "t2"] ∧
  sent o =
    delivery cb product ++
    alerts [9] (NewPurchaseText (from_username cb) (name product) (amount pay)) ∧
  status <$> get_payment "77" (store o) = Some "paid" ∧
  (from_user_id cb = payment_user_id pay →
   purchase_user_id <$> last (purchases (store o)) = Some (payment_user_id pay)).
Proof.
  intros cb reply i pay product s o.
  assert (H1 : result (run (check_invoice reply) s) = Ok (Some i)) by reflexivity.
  assert (H2 : inv_status i = "paid") by reflexivity.
  assert (H3 : get_payment "77" s = Some pay) by reflexivity.
  assert (H4 : status pay = "pending") by reflexivity.
  assert (H5 : get_product (payment_product_id pay) s = Some product) by reflexivity.
  split; [done|].
  exact (winning_check_records_requester [9] cb "77" reply "t2" s i pay product
           H1 H2 H3 H4 H5).
Defined.

(** C4 as stated fails: the invoice was created by user 1, the check is
    pressed by user 2; the purchase row is recorded for user 2 and the file
    is sent to user 2, not to the buyer of the payment. *)
Lemma winning_check_ignores_payment_user :
  let cb := mk_callback 2 (Some "bob") 2 in
  let reply := Reply 200 (mk_envelope true (Some [mk_invoice 77 "paid" "u"]) None) in
  let s := save_payment 1 1 "77" 500 "t1"
             (add_product 1 "book" (Some "d") 500 "file" None (Some "FID") "t0"
                (add_user 2 (Some "bob") "B" "t"
                   (add_user 1 (Some "alice") "A" "t" init_db))) in
  let o := run (cb_check_payment [9] cb "77" reply "t2") s in
  payment_user_id <$> get_payment "77" s = Some 1 ∧
  purchases (store o) = [mk_purchase 1 2 1 500 "t2"] ∧
  sent o = [edit_text 2 (PaidText "book" None) None;
            send_document 2 (Some "FID") (Some (back_button "shop"));
            send_message 9 (NewPurchaseText (Some "bob") "book" 500)].
Proof. repeat split; reflexivity. Qed.

(** ** Deactivated products *)

Lemma elem_of_get_products_by_category cat_id s product_id p :
  (product_id, p) ∈ get_products_by_category cat_id s ↔
  products s !! product_id = Some p ∧ category_id p = cat_id ∧ is_active p = 1.
Proof.
  unfold get_products_by_category. rewrite merge_sort_Permutation.
  rewrite elem_of_map_to_list, map_lookup_filter_Some. by cbn.
Qed.



(** ** The per-user counters *)

(** C7, on the code. [add_purchase] appends the purchase row and then
    updates the counters WHERE user_id = ?, which matches no row for a user
    who is not in the users table; the schema declares the user of a
    purchase a FOREIGN KEY into users, and nothing enforces it. A user who
    never sent /start buys and checks a paid invoice: the purchase row is
    recorded under a user id that has no users row. When that user
    registers afterwards the row starts at zero, and after a second
    purchase the counters say one purchase where the ledger holds two. With
    the registration first, the same purchase leaves the counters equal to
    the number and the price of the one purchase row. *)
Theorem counters_diverge_for_unregistered_buyer :
  let cb := mk_callback 5 (Some "eve") 5 in
  let issued n := Reply 200 (mk_envelope true (Some (mk_invoice n "active" "u")) None) in
  let paid n := Reply 200 (mk_envelope true (Some [mk_invoice n "paid" "u"]) None) in
  let shop := [OpAddCategory "keys";
               OpAddProduct 1 "key" (Some "d") 999 "text" (Some "SECRET") None "t0"] in
  let purchase := [OpBuy cb 1 (issued 77) "t1"; OpCheck [9] cb "77" (paid 77) "t2"] in
  let register := [OpAddUser 5 (Some "eve") "E" "t3"] in
  let again := [OpBuy cb 1 (issued 78) "t4"; OpCheck [9] cb "78" (paid 78) "t5"] in
  let unregistered := apply_ops (shop ++ purchase) init_db in
  let late := apply_ops (shop ++ purchase ++ register) init_db in
  let later := apply_ops (shop ++ purchase ++ register ++ again) init_db in
  let in_order := apply_ops (shop ++ register ++ purchase) init_db in
  (purchases_of 5 unregistered = [mk_purchase 1 5 1 999 "t2"] ∧
   get_user 5 unregistered = None) ∧
  (purchases_of 5 late = [mk_purchase 1 5 1 999 "t2"] ∧
   get_user 5 late = Some (mk_user (Some "eve") "E" 0 0 0 "t3")) ∧
  (purchases_of 5 later = [mk_purchase 1 5 1 999 "t2"; mk_purchase 2 5 1 999 "t5"] ∧
   get_user 5 later = Some (mk_user (Some "eve") "E" 0 1 999 "t3")) ∧
  (purchases_of 5 in_order = [mk_purchase 1 5 1 999 "t2"] ∧
   get_user 5 in_order = Some (mk_user (Some "eve") "E" 0 1 999 "t3")).
Proof. repeat split; reflexivity. Qed.

(** ** What a payment check commits, and in which order *)



(** ** Two checks of one invoice at the same time *)

(** C1, on the code. The transition is a read ([get_payment]) followed by a
    separate write ([update_payment_status]): when two checks of the same
    paid invoice are served as concurrent tasks and both read the payment
    before either writes, both find it pending, both win, and the product is
    recorded and delivered twice. Served one after the other, the second
    check only answers that the product has already been issued. *)
Theorem concurrent_checks_both_win :
  let cb := mk_callback 1 (Some "alice") 1 in
  let reply := Reply 200 (mk_envelope true (Some [mk_invoice 77 "paid" "u"]) None) in
  let s := save_payment 1 1 "77" 999 "t1"
             (add_product 1 "key" (Some "d") 999 "text" (Some "SECRET") None "t0"
                (add_user 1 (Some "alice") "A" "t" init_db)) in
  let first := cb_check_payment [9] cb "77" reply "t2" in
  let second := cb_check_payment [9] cb "77" reply "t3" in
  let racing := interleave [false; false; true; true;
                            false; false; false; false; false;
                            true; true; true; true; true] first second s in
  let in_turn := interleave [false; false; false; false; false; false; false;
                             true; true; true] first second s in
  (finished racing.1.1.1 = true ∧ finished racing.1.1.2 = true ∧
   purchases racing.1.2 = [mk_purchase 1 1 1 999 "t2"; mk_purchase 2 1 1 999 "t3"] ∧
   total_purchases <$> get_user 1 racing.1.2 = Some 2 ∧
   filter (λ e, is_delivery e = true) racing.2 =
     [edit_text 1 (PaidText "key" (Some (Some "SECRET"))) (Some (back_button "shop"));
      edit_text 1 (PaidText "key" (Some (Some "SECRET"))) (Some (back_button "shop"))]) ∧
  (finished in_turn.1.1.1 = true ∧ finished in_turn.1.1.2 = true ∧
   purchases in_turn.1.2 = [mk_purchase 1 1 1 999 "t2"] ∧
   last in_turn.2 = Some (answer 1 (Some AlreadyIssuedText))).
Proof. repeat split; reflexivity. Qed.

(** * Further properties of the storage helpers and the handlers *)

(** ** Registration *)

(** X1. [add_user] is INSERT OR IGNORE: registering a user again, under
    whatever name and at whatever time, changes nothing, so the counters, the
    name and the date of the first registration stay; a first registration
    creates the row with zero counters and leaves every other user alone. *)
Theorem add_user_keeps_first_registration user_id uname fname now uname' fname' now' s :
  add_user user_id uname' fname' now' (add_user user_id uname fname now s) =
    add_user user_id uname fname now s ∧
  (∀ u, get_user user_id s = Some u →
        get_user user_id (add_user user_id uname fname now s) = Some u) ∧
  (get_user user_id s = None →
   get_user user_id (add_user user_id uname fname now s) =
     Some (mk_user uname fname 0 0 0 now)) ∧
  (∀ other, other ≠ user_id →
            get_user other (add_user user_id uname fname now s) = get_user other s).
Proof.
  unfold add_user, get_user. repeat split.
  - destruct (users s !! user_id) as [u|] eqn:Hu; [by rewrite Hu|].
    cbn. by rewrite lookup_insert_eq.
  - intros u Hu. by rewrite Hu.
  - intros Hu. rewrite Hu. cbn. by rewrite lookup_insert_eq.
  - intros other Hne. destruct (users s !! user_id); [done|].
    cbn. by rewrite lookup_insert_ne.
Qed.

(** ** The ledgers only grow *)

Lemma check_store_run ADMIN_IDS cb inv reply now s :
  let s' := store (run (cb_check_payment ADMIN_IDS cb inv reply now) s) in
  s' = s ∨
  s' = update_payment_status inv "paid" s ∨
  ∃ pay, pending (get_payment inv s) = Some pay ∧
    s' = add_purchase (from_user_id cb) (payment_product_id pay) (amount pay) now
           (update_payment_status inv "paid" s).
Proof.
  unfold run.
  destruct (check_store_cases ADMIN_IDS cb inv reply now [] s)
    as [[H _]|[(p & _ & H & _)|(p & Hp & H)]]; eauto.
Qed.

Lemma apply_op_purchases_grow o s :
  purchases s `prefix_of` purchases (apply_op o s).
Proof.
  destruct o; cbn [apply_op]; try done.
  - unfold add_user. by destruct (users s !! user_id).
  - by apply prefix_app_r.
  - rewrite run_cb_buy_store. destruct (get_product prod_id s); [|done].
    by destruct (result (run (create_invoice reply) s)) as [[i|]|].
  - destruct (check_store_run ADMIN_IDS cb inv reply now s)
      as [->|[->|(p & _ & ->)]]; [done..|]. by apply prefix_app_r.
Qed.

(** X2. The purchase ledger is append-only: whatever sequence of helper
    calls and handler invocations runs, the purchase rows that were there
    stay, unchanged and in place, at the front of the ledger. *)
Theorem purchases_are_append_only ops s :
  purchases s `prefix_of` purchases (apply_ops ops s).
Proof.
  revert s. induction ops as [|o ops IH]; intros s; [done|].
  cbn. etrans; [apply (apply_op_purchases_grow o)|apply IH].
Qed.

Lemma snapshot_update_payment_status inv st s :
  snapshot <$> payments (update_payment_status inv st s) = snapshot <$> payments s.
Proof.
  unfold update_payment_status, with_payments. cbn [payments].
  induction (payments s) as [|p l IH]; [done|]. cbn. rewrite <- IH. f_equal.
  by destruct (String.eqb (invoice_id p) inv).
Qed.

Lemma apply_op_payments_grow o s :
  (snapshot <$> payments s) `prefix_of` (snapshot <$> payments (apply_op o s)).
Proof.
  destruct o; cbn [apply_op]; try done.
  - unfold add_user. by destruct (users s !! user_id).
  - unfold save_payment, with_payments. cbn [payments]. rewrite fmap_app.
    by apply prefix_app_r.
  - by rewrite snapshot_update_payment_status.
  - rewrite run_cb_buy_store. destruct (get_product prod_id s); [|done].
    destruct (result (run (create_invoice reply) s)) as [[i|]|]; [|done..].
    unfold save_payment, with_payments. cbn [payments]. rewrite fmap_app.
    by apply prefix_app_r.
  - destruct (check_store_run ADMIN_IDS cb inv reply now s)
      as [->|[->|(p & _ & ->)]]; [done| |].
    + by rewrite snapshot_update_payment_status.
    + change (payments (add_purchase ?u ?pr ?a ?t ?s0)) with (payments s0).
      by rewrite snapshot_update_payment_status.
Qed.

(** X3. Payment rows are never deleted and only their status ever changes:
    after any sequence of helper calls and handler invocations the rows that
    were in the ledger are still at its front with the same id, user,
    product, invoice id, amount and creation time, so the amount a payment
    snapshotted when the invoice was created stays what it was. *)
Theorem payments_keep_their_snapshot ops s :
  (snapshot <$> payments s) `prefix_of` (snapshot <$> payments (apply_ops ops s)).
Proof.
  revert s. induction ops as [|o ops IH]; intros s; [done|].
  cbn. etrans; [apply (apply_op_payments_grow o)|apply IH].
Qed.

(** ** AUTOINCREMENT ids *)

Lemma numbered_snoc ids :
  numbered ids → numbered (ids ++ [Z.of_nat (length ids) + 1]).
Proof.
  unfold numbered. intros H. rewrite length_app. cbn [length].
  rewrite Nat.add_1_r, seq_S, fmap_app, <- H. cbn. do 3 f_equal. lia.
Qed.

Lemma payment_ids_update_payment_status inv st s :
  payment_id <$> payments (update_payment_status inv st s) = payment_id <$> payments s.
Proof.
  unfold update_payment_status, with_payments. cbn [payments].
  induction (payments s) as [|p l IH]; [done|]. cbn. rewrite <- IH. f_equal.
  by destruct (String.eqb (invoice_id p) inv).
Qed.

Lemma add_purchase_numbered user_id product_id pprice now s :
  ledgers_numbered s → ledgers_numbered (add_purchase user_id product_id pprice now s).
Proof.
  intros [Hpu Hpa]. split; [|done]. unfold add_purchase. cbn.
  rewrite fmap_app. cbn.
  rewrite <- (length_fmap purchase_id (purchases s)). by apply numbered_snoc.
Qed.

Lemma save_payment_numbered user_id product_id inv amt now s :
  ledgers_numbered s → ledgers_numbered (save_payment user_id product_id inv amt now s).
Proof.
  intros [Hpu Hpa]. split; [done|]. unfold save_payment. cbn.
  rewrite fmap_app. cbn.
  rewrite <- (length_fmap payment_id (payments s)). by apply numbered_snoc.
Qed.

Lemma update_payment_status_numbered inv st s :
  ledgers_numbered s → ledgers_numbered (update_payment_status inv st s).
Proof.
  intros [Hpu Hpa]. split; [done|]. by rewrite payment_ids_update_payment_status.
Qed.

Lemma apply_op_numbered o s : ledgers_numbered s → ledgers_numbered (apply_op o s).
Proof.
  intros Hs. destruct o; cbn [apply_op]; try done.
  - unfold add_user. by destruct (users s !! user_id).
  - by apply add_purchase_numbered.
  - by apply save_payment_numbered.
  - by apply update_payment_status_numbered.
  - rewrite run_cb_buy_store. destruct (get_product prod_id s); [|done].
    destruct (result (run (create_invoice reply) s)) as [[i|]|]; [|done..].
    by apply save_payment_numbered.
  - destruct (check_store_run ADMIN_IDS cb inv reply now s)
      as [->|[->|(p & _ & ->)]]; [done| |].
    + by apply update_payment_status_numbered.
    + by apply add_purchase_numbered, update_payment_status_numbered.
Qed.

(** X4. Starting from the empty store, after any sequence of helper calls
    and handler invocations the purchase rows carry the ids 1, 2, 3, ... in
    insertion order, and so do the payment rows: the id each insert computes
    is the one AUTOINCREMENT assigns, and no two rows of a ledger share an
    id. *)
Theorem ledger_ids_are_sequential ops :
  let s := apply_ops ops init_db in
  purchase_id <$> purchases s = Z.of_nat <$> seq 1 (length (purchases s)) ∧
  payment_id <$> payments s = Z.of_nat <$> seq 1 (length (payments s)) ∧
  NoDup (purchase_id <$> purchases s) ∧ NoDup (payment_id <$> payments s).
Proof.
  intros s.
  assert (H : ledgers_numbered s).
  { unfold s. generalize init_db (conj (eq_refl : numbered []) (eq_refl : numbered [])
      : ledgers_numbered init_db).
    induction ops as [|o ops IH]; intros s0 Hs0; [done|].
    cbn. by apply IH, apply_op_numbered. }
  destruct H as [Hpu Hpa]. unfold numbered in *. rewrite !length_fmap in *.
  split; [done|]. split; [done|].
  rewrite Hpu, Hpa. split; (apply NoDup_fmap; [apply Nat2Z.inj'|apply NoDup_seq]).
Qed.

Lemma apply_op_products_below_seq o s :
  products_below_seq s → products_below_seq (apply_op o s).
Proof.
  intros Hs. destruct o; cbn [apply_op]; try done.
  - unfold add_user. by destruct (users s !! user_id).
  - intros pid [p Hp]. cbn in *.
    apply map_lookup_filter_Some in Hp as [Hp _]. by apply Hs.
  - intros pid Hp. cbn in *. apply lookup_insert_is_Some in Hp as [<-|[_ Hp]]; [lia|].
    specialize (Hs pid Hp). lia.
  - intros pid Hp. cbn in *. apply lookup_alter_is_Some in Hp. by apply Hs.
  - rewrite run_cb_buy_store. destruct (get_product prod_id s); [|done].
    by destruct (result (run (create_invoice reply) s)) as [[i|]|].
  - by destruct (check_store_run ADMIN_IDS cb inv reply now s)
      as [->|[->|(p & _ & ->)]].
Qed.

Lemma apply_op_seq_products_grows o s : seq_products s ≤ seq_products (apply_op o s).
Proof.
  destruct o; cbn [apply_op]; try done.
  - unfold add_user. by destruct (users s !! user_id).
  - cbn. lia.
  - rewrite run_cb_buy_store. destruct (get_product prod_id s); [|done].
    by destruct (result (run (create_invoice reply) s)) as [[i|]|].
  - by destruct (check_store_run ADMIN_IDS cb inv reply now s)
      as [->|[->|(p & _ & ->)]].
Qed.

Lemma apply_ops_seq_products_grows ops s : seq_products s ≤ seq_products (apply_ops ops s).
Proof.
  revert s. induction ops as [|o ops IH]; intros s; [done|].
  cbn. etrans; [apply (apply_op_seq_products_grows o)|apply IH].
Qed.

(** X5. Product ids are never reused. In every store reached from the empty
    one, [add_product] inserts under an id no product row has, so it never
    overwrites a product: every product that was there is returned by
    [get_product] as before and the new row is returned under the new id,
    active; and every id assigned later, also after [delete_category] has
    removed rows, is larger than the ids assigned so far. *)
Theorem product_ids_are_never_reused ops ops' cat_id pname pdesc pprice ptype pcontent pfile now :
  let s := apply_ops ops init_db in
  let s' := add_product cat_id pname pdesc pprice ptype pcontent pfile now s in
  get_product (seq_products s + 1) s = None ∧
  get_product (seq_products s + 1) s' =
    Some (mk_product cat_id pname pdesc pprice ptype pcontent pfile 1 now) ∧
  (∀ product_id p, get_product product_id s = Some p →
                   get_product product_id s' = Some p) ∧
  (∀ product_id, is_Some (get_product product_id s') →
                 product_id < seq_products (apply_ops ops' s') + 1).
Proof.
  intros s s'.
  assert (Hs : products_below_seq s).
  { unfold s. assert (H0 : products_below_seq init_db).
    { intros pid [p Hp]. change (products init_db) with (∅ : gmap Z product_row) in Hp.
      by rewrite lookup_empty in Hp. }
    revert H0. generalize init_db.
    induction ops as [|o ops IH]; intros s0 Hs0; [done|].
    cbn. by apply IH, apply_op_products_below_seq. }
  assert (Hfresh : get_product (seq_products s + 1) s = None).
  { unfold get_product. destruct (products s !! (seq_products s + 1)) eqn:E; [|done].
    assert (seq_products s + 1 ≤ seq_products s) by (apply Hs; by eexists). lia. }
  split; [done|]. split; [|split].
  - unfold s', get_product, add_product. cbn. by rewrite lookup_insert_eq.
  - intros pid p Hp. unfold s', get_product, add_product in *. cbn.
    rewrite lookup_insert_ne; [done|]. intros <-. congruence.
  - intros pid Hp.
    assert (Hs' : products_below_seq s')
      by apply (apply_op_products_below_seq
                  (OpAddProduct cat_id pname pdesc pprice ptype pcontent pfile now) s Hs).
    pose proof (Hs' pid Hp). pose proof (apply_ops_seq_products_grows ops' s'). lia.
Qed.

(** ** One invoice among the others *)

Lemma get_payment_update_other inv' inv st s :
  inv' ≠ inv →
  get_payment inv' (update_payment_status inv st s) = get_payment inv' s.
Proof.
  intros Hne. unfold get_payment, update_payment_status, with_payments.
  cbn [payments]. induction (payments s) as [|p l IH]; [done|]. cbn [map find].
  destruct (String.eqb (invoice_id p) inv) eqn:E; cbn [invoice_id set_status].
  - apply String.eqb_eq in E. subst inv.
    destruct (String.eqb (invoice_id p) inv') eqn:E'; [|done].
    apply String.eqb_eq in E'. by destruct Hne.
  - by rewrite IH.
Qed.

Lemma other_rows_update_payment_status inv st s :
  filter (λ p, invoice_id p ≠ inv) (payments (update_payment_status inv st s)) =
  filter (λ p, invoice_id p ≠ inv) (payments s).
Proof.
  unfold update_payment_status, with_payments. cbn [payments].
  induction (payments s) as [|p l IH]; [done|]. cbn [map].
  destruct (String.eqb (invoice_id p) inv) eqn:E.
  - apply String.eqb_eq in E. rewrite !filter_cons, !decide_False; [done|..];
      cbn; by intros [].
  - apply String.eqb_neq in E. rewrite !filter_cons, !decide_True by done.
    by rewrite IH.
Qed.

(** X6. A payment check touches the payment rows of its own invoice only:
    whatever the processor answers and whatever fails, the rows of every
    other invoice are the same rows afterwards, and a lookup of another
    invoice returns what it returned before. *)
Theorem check_leaves_other_invoices ADMIN_IDS cb inv reply now faults s :
  let s' := store (exec (cb_check_payment ADMIN_IDS cb inv reply now) faults s) in
  filter (λ p, invoice_id p ≠ inv) (payments s') =
    filter (λ p, invoice_id p ≠ inv) (payments s) ∧
  (∀ inv', inv' ≠ inv → get_payment inv' s' = get_payment inv' s).
Proof.
  intros s'. unfold s'.
  destruct (check_store_cases ADMIN_IDS cb inv reply now faults s)
    as [[-> _]|[(p & _ & -> & _)|(p & _ & ->)]]; [done| |].
  - split; [apply other_rows_update_payment_status|].
    intros inv' Hne. by apply get_payment_update_other.
  - change (payments (add_purchase ?u ?pr ?a ?t ?s0)) with (payments s0).
    split; [apply other_rows_update_payment_status|]. intros inv' Hne.
    change (get_payment inv' (add_purchase ?u ?pr ?a ?t ?s0)) with (get_payment inv' s0).
    by apply get_payment_update_other.
Qed.

(** ** Paid is terminal *)

Lemma set_status_same p : set_status (status p) p = p.
Proof. by destruct p. Qed.

Lemma get_payment_mark_paid i inv s p :
  get_payment inv s = Some p → status p = "paid" →
  get_payment inv (update_payment_status i "paid" s) = Some p.
Proof.
  intros Hp Hpaid. destruct (decide (inv = i)) as [->|Hne].
  - rewrite get_payment_update_payment_status, Hp. cbn.
    by rewrite <- Hpaid, set_status_same.
  - by rewrite get_payment_update_other.
Qed.

Lemma apply_op_keeps_paid o s inv p :
  marks_paid_only o → get_payment inv s = Some p → status p = "paid" →
  get_payment inv (apply_op o s) = Some p.
Proof.
  intros Ho Hp Hpaid. destruct o; cbn [apply_op marks_paid_only] in *; try done.
  - unfold add_user. by destruct (users s !! user_id).
  - by rewrite get_payment_save_payment, Hp.
  - subst st. by apply get_payment_mark_paid.
  - rewrite run_cb_buy_store. destruct (get_product prod_id s); [|done].
    destruct (result (run (create_invoice reply) s)) as [[i|]|]; [|done..].
    by rewrite get_payment_save_payment, Hp.
  - destruct (check_store_run ADMIN_IDS cb inv0 reply now s)
      as [->|[->|(p' & _ & ->)]]; [done| |]; by apply get_payment_mark_paid.
Qed.

(** X7. Paid is terminal. Once the lookup of an invoice returns a paid
    payment, it returns that same row after any sequence of helper calls and
    handler invocations in which no status other than 'paid' is written
    (the handlers write no other): no purchase, payment check, new invoice or
    catalogue change moves the payment back or replaces it. *)
Theorem paid_is_terminal ops s inv p :
  Forall marks_paid_only ops →
  get_payment inv s = Some p →
  status p = "paid" →
  get_payment inv (apply_ops ops s) = Some p.
Proof.
  intros Hops. revert s. induction Hops as [|o ops Ho Hops IH]; intros s Hp Hpaid;
    [done|].
  cbn. apply IH; [|done]. by apply apply_op_keeps_paid.
Qed.

Lemma paid_is_terminal_witness :
  let cb := mk_callback 1 (Some "alice") 1 in
  let issued := Reply 200 (mk_envelope true (Some (mk_invoice 78 "active" "u")) None) in
  let paid := Reply 200 (mk_envelope true (Some [mk_invoice 77 "paid" "u"]) None) in
  let p := mk_payment 1 1 1 "77" 999 "paid" "t1" in
  let s := update_payment_status "77" "paid"
             (save_payment 1 1 "77" 999 "t1"
                (add_product 1 "key" (Some "d") 999 "text" (Some "SECRET") None "t0" init_db)) in
  let ops := [OpCheck [9] cb "77" paid "t2"; OpSavePayment 2 1 "77" 5 "t3";
              OpBuy cb 1 issued "t4"; OpDeleteCategory 1;
              OpUpdatePaymentStatus "77" "paid"] in
  Forall marks_paid_only ops ∧ get_payment "77" s = Some p ∧ status p = "paid" ∧
  get_payment "77" (apply_ops ops s) = Some p.
Proof.
  intros cb issued paid p s ops.
  assert (H1 : Forall marks_paid_only ops) by (repeat constructor).
  assert (H2 : get_payment "77" s = Some p) by reflexivity.
  assert (H3 : status p = "paid") by reflexivity.
  split; [exact H1|]. split; [exact H2|]. split; [exact H3|].
  exact (paid_is_terminal ops s "77" p H1 H2 H3).
Defined.

(** ** Checking one invoice again and again *)

Lemma check_without_pending ADMIN_IDS cb inv reply now faults s :
  pending (get_payment inv s) = None →
  store (exec (cb_check_payment ADMIN_IDS cb inv reply now) faults s) = s.
Proof.
  intros Hnone.
  destruct (check_store_cases ADMIN_IDS cb inv reply now faults s)
    as [[H _]|[(p & Hp & _)|(p & Hp & _)]]; [done|congruence..].
Qed.

Lemma pending_after_mark_paid inv s :
  pending (get_payment inv (update_payment_status inv "paid" s)) = None.
Proof.
  rewrite get_payment_update_payment_status.
  by destruct (get_payment inv s).
Qed.

Lemma apply_ops_cons o ops s : apply_ops (o :: ops) s = apply_ops ops (apply_op o s).
Proof. reflexivity. Qed.

Lemma checks_without_pending ops inv s :
  Forall (is_check_of inv) ops →
  pending (get_payment inv s) = None →
  apply_ops ops s = s.
Proof.
  intros Hops. revert s. induction Hops as [|o ops Ho Hops IH]; intros s Hs; [done|].
  destruct o; try done. cbn in Ho. subst inv0.
  rewrite apply_ops_cons. cbn [apply_op].
  unfold run. rewrite check_without_pending by done. by apply IH.
Qed.

(** X8. Served one after the other, the payment checks of one invoice
    record at most one purchase: whoever presses, whatever the processor
    answers each time and however often the check is repeated, the purchase
    ledger grows by no more than one row. *)
Theorem repeated_checks_record_at_most_one_purchase ops inv s :
  Forall (is_check_of inv) ops →
  (length (purchases (apply_ops ops s)) ≤ length (purchases s) + 1)%nat.
Proof.
  intros Hops. revert s. induction Hops as [|o ops Ho Hops IH]; intros s; [cbn; lia|].
  destruct o; try done. cbn in Ho. subst inv0.
  rewrite apply_ops_cons. cbn [apply_op].
  destruct (check_store_run ADMIN_IDS cb inv reply now s)
    as [->|[->|(p & _ & ->)]]; [apply IH| |].
  - rewrite (checks_without_pending ops inv);
      [cbn; lia|done|apply pending_after_mark_paid].
  - rewrite (checks_without_pending ops inv); [|done|apply pending_after_mark_paid].
    cbn. rewrite length_app. cbn. lia.
Qed.

Lemma repeated_checks_record_at_most_one_purchase_witness :
  let alice := mk_callback 1 (Some "alice") 1 in
  let bob := mk_callback 2 (Some "bob") 2 in
  let paid := Reply 200 (mk_envelope true (Some [mk_invoice 77 "paid" "u"]) None) in
  let active := Reply 200 (mk_envelope true (Some [mk_invoice 77 "active" "u"]) None) in
  let s := save_payment 1 1 "77" 999 "t1"
             (add_product 1 "key" (Some "d") 999 "text" (Some "SECRET") None "t0" init_db) in
  let ops := [OpCheck [9] alice "77" active "t2"; OpCheck [9] alice "77" paid "t3";
              OpCheck [9] bob "77" paid "t4"; OpCheck [] alice "77" TransportFailure "t5"] in
  Forall (is_check_of "77") ops ∧
  (length (purchases (apply_ops ops s)) ≤ length (purchases s) + 1)%nat.
Proof.
  intros alice bob paid active s ops.
  assert (H : Forall (is_check_of "77") ops) by (repeat constructor).
  split; [exact H|].
  exact (repeated_checks_record_at_most_one_purchase ops "77" s H).
Defined.

(** ** A purchase whose product row is gone *)

Lemma get_product_delete_category product_id cat_id s :
  get_product product_id (delete_category cat_id s) =
  match get_product product_id s with
  | Some p => if decide (category_id p = cat_id) then None else Some p
  | None => None
  end.
Proof.
  unfold get_product, delete_category. cbn.
  destruct (products s !! product_id) as [p|] eqn:Hp.
  - destruct (decide (category_id p = cat_id)) as [Heq|Hne].
    + apply map_lookup_filter_None. right. intros p' Hp'. cbn. naive_solver.
    + by apply map_lookup_filter_Some.
  - apply map_lookup_filter_None. by left.
Qed.



(** ** Failures after the commit *)



Lemma exec_notify_admins_sent ADMIN_IDS t flags s :
  sent (exec (notify_admins ADMIN_IDS t) flags s) = alerts (reached ADMIN_IDS flags) t.
Proof.
  revert flags. induction ADMIN_IDS as [|a l IH]; intros flags; [done|].
  cbn [reached]. norm. rewrite exec_await. cbn [failed perform fst snd].
  destruct (hd false flags); cbn [also sent app]; by rewrite IH.
Qed.

Lemma reached_sublist ADMIN_IDS flags : reached ADMIN_IDS flags `sublist_of` ADMIN_IDS.
Proof.
  revert flags. induction ADMIN_IDS as [|a l IH]; intros flags; [done|].
  cbn [reached]. destruct (hd false flags).
  - by apply sublist_cons.
  - by apply sublist_skip.
Qed.

Lemma reached_lookup ADMIN_IDS flags (k : nat) admin_id :
  ADMIN_IDS !! k = Some admin_id → flags !! k ≠ Some true →
  admin_id ∈ reached ADMIN_IDS flags.
Proof.
  revert flags k. induction ADMIN_IDS as [|a l IH]; intros flags k Hk Hflag; [done|].
  cbn [reached]. destruct k as [|k].
  - injection Hk as ->. destruct flags as [|[] flags]; [|done|]; apply list_elem_of_here.
  - assert (Hin : admin_id ∈ reached l (tl flags)).
    { apply (IH _ k); [done|]. by destruct flags. }
    destruct (hd false flags); [done|]. by apply list_elem_of_further.
Qed.

(** X11. The alerts to the administrators are best effort. When a check
    wins and the product is delivered, each alert is tried in the order of
    ADMIN_IDS; an alert that fails is skipped and the next one is still
    tried, the handler ends normally, the store is the committed one, and
    what was sent is the delivery followed by the alerts to exactly the
    administrators whose send did not fail, in the order of ADMIN_IDS:
    every administrator whose send does not fail is among them. *)
Theorem failed_alerts_are_skipped ADMIN_IDS cb inv reply now s i pay product flags :
  result (run (check_invoice reply) s) = Ok (Some i) →
  inv_status i = "paid" →
  get_payment inv s = Some pay →
  status pay = "pending" →
  get_product (payment_product_id pay) s = Some product →
  let o := exec (cb_check_payment ADMIN_IDS cb inv reply now)
                (replicate (5 + length (delivery cb product)) false ++ flags) s in
  let alert := NewPurchaseText (from_username cb) (name product) (amount pay) in
  result o = Ok tt ∧
  store o = add_purchase (from_user_id cb) (payment_product_id pay) (amount pay) now
              (update_payment_status inv "paid" s) ∧
  sent o = delivery cb product ++ alerts (reached ADMIN_IDS flags) alert ∧
  reached ADMIN_IDS flags `sublist_of` ADMIN_IDS ∧
  (∀ (k : nat) admin_id,
     ADMIN_IDS !! k = Some admin_id → flags !! k ≠ Some true →
     send_message admin_id alert ∈ sent o).
Proof.
  intros Hi Hst Hpay Hpending Hprod o alert.
  assert (Hp : pending (get_payment inv s) = Some pay) by by apply pending_Some.
  rewrite run_check_invoice in Hi. cbn [result] in Hi.
  set (s' := add_purchase _ _ _ _ _).
  assert (Ho : o = also (delivery cb product) (exec (notify_admins ADMIN_IDS alert) flags s')).
  { unfold o, cb_check_payment, check_invoice, await.
    destruct reply as [|st body]; [done|]. cbn in *.
    destruct (env_ok body); [|done].
    destruct (env_result body) as [items|]; [|done].
    injection Hi as ->. cbn. rewrite Hst. cbn. rewrite Hp. cbn.
    change (get_product (payment_product_id pay) (update_payment_status inv "paid" s))
      with (get_product (payment_product_id pay) s).
    rewrite Hprod. cbn. unfold deliver, delivery, await.
    destruct (String.eqb (product_type product) "text"); cbn;
      rewrite ?also_nil, ?also_also; done. }
  rewrite Ho. cbn [result store sent also].
  destruct (exec_notify_admins ADMIN_IDS alert flags s') as (Hres & Hstore & _).
  rewrite exec_notify_admins_sent.
  split; [done|]. split; [done|]. split; [done|]. split; [apply reached_sublist|].
  intros k admin_id Hk Hflag. apply elem_of_app. right.
  unfold alerts. apply list_elem_of_fmap. exists admin_id. split; [done|].
  by apply (reached_lookup _ _ k).
Qed.

Lemma failed_alerts_are_skipped_witness :
  let cb := mk_callback 1 (Some "alice") 1 in
  let reply := Reply 200 (mk_envelope true (Some [mk_invoice 77 "paid" "u"]) None) in
  let i := mk_invoice 77 "paid" "u" in
  let pay := mk_payment 1 1 1 "77" 999 "pending" "t1" in
  let product := mk_product 1 "key" (Some "d") 999 "text" (Some "SECRET") None 1 "t0" in
  let s := save_payment 1 1 "77" 999 "t1"
             (add_product 1 "key" (Some "d") 999 "text" (Some "SECRET") None "t0"
                (add_user 1 (Some "alice") "A" "t" init_db)) in
  let o := exec (cb_check_payment [8; 9] cb "77" reply "t2")
                (replicate (5 + length (delivery cb product)) false ++ [true; false]) s in
  let alert := NewPurchaseText (from_username cb) (name product) (amount pay) in
  (result (run (check_invoice reply) s) = Ok (Some i) ∧ inv_status i = "paid" ∧
   get_payment "77" s = Some pay ∧ status pay = "pending" ∧
   get_product (payment_product_id pay) s = Some product) ∧
  result o = Ok tt ∧
  store o = add_purchase (from_user_id cb) (payment_product_id pay) (amount pay) "t2"
              (update_payment_status "77" "paid" s) ∧
  sent o = delivery cb product ++ alerts (reached [8; 9] [true; false]) alert ∧
  reached [8; 9] [true; false] `sublist_of` [8; 9] ∧
  (∀ (k : nat) admin_id,
     [8; 9] !! k = Some admin_id → [true; false] !! k ≠ Some true →
     send_message admin_id alert ∈ sent o).
Proof.
  intros cb reply i pay product s o alert.
  assert (H1 : result (run (check_invoice reply) s) = Ok (Some i)) by reflexivity.
  assert (H2 : inv_status i = "paid") by reflexivity.
  assert (H3 : get_payment "77" s = Some pay) by reflexivity.
  assert (H4 : status pay = "pending") by reflexivity.
  assert (H5 : get_product (payment_product_id pay) s = Some product) by reflexivity.
  split; [done|].
  exact (failed_alerts_are_skipped [8; 9] cb "77" reply "t2" s i pay product
           [true; false] H1 H2 H3 H4 H5).
Defined.

(** ** Buying *)

Lemma get_payment_save_payment_fresh user_id product_id inv amt now s :
  inv ∉ invoice_ids s →
  get_payment inv (save_payment user_id product_id inv amt now s) =
  Some (mk_payment (Z.of_nat (length (payments s)) + 1) user_id product_id inv amt
                   "pending" now).
Proof.
  intros Hfresh. rewrite get_payment_save_payment.
  destruct (get_payment inv s) as [old|] eqn:Hold.
  - destruct Hfresh. apply get_payment_is_Some. by rewrite Hold.
  - cbn. by rewrite String.eqb_refl.
Qed.

Lemma run_create_invoice reply s :
  run (create_invoice reply) s =
  mk_outcome
    match reply with
    | TransportFailure => Err ClientError
    | Reply _ body =>
        if env_ok body then
          match env_result body with
          | Some i => Ok (Some i)
          | None => Err KeyError
          end
        else Ok None
    end s [].
Proof.
  unfold run, create_invoice, await. destruct reply as [|st body]; [done|].
  cbn. destruct (env_ok body); [|done]. by destruct (env_result body).
Qed.

(** X12. [cb_buy] on a product row that exists (the active flag is not
    looked at, so a deactivated product can still be bought from an old
    button) and an invoice issued by the processor: one pending payment is
    saved under the decimal text of the invoice id, for the user who pressed
    and with the price the product has now; the message is replaced by the
    payment screen whose check button carries that invoice id, and the
    callback is answered. When the invoice id is new to the ledger, looking
    it up returns exactly the saved payment. *)
Theorem cb_buy_saves_pending_payment cb prod_id reply now s product i :
  get_product prod_id s = Some product →
  result (run (create_invoice reply) s) = Ok (Some i) →
  let saved := mk_payment (Z.of_nat (length (payments s)) + 1) (from_user_id cb)
                 prod_id (str (inv_invoice_id i)) (price product) "pending" now in
  run (cb_buy cb prod_id reply now) s =
    mk_outcome (Ok tt)
      (save_payment (from_user_id cb) prod_id (str (inv_invoice_id i)) (price product) now s)
      [edit_text (message_chat_id cb) (PayText (name product) (price product))
         (Some (pay_keyboard (inv_pay_url i) (inv_invoice_id i) prod_id));
       answer (from_user_id cb) None] ∧
  payments (store (run (cb_buy cb prod_id reply now) s)) = payments s ++ [saved] ∧
  (str (inv_invoice_id i) ∉ invoice_ids s →
   get_payment (str (inv_invoice_id i)) (store (run (cb_buy cb prod_id reply now) s)) =
     Some saved).
Proof.
  intros Hprod Hi saved. rewrite run_create_invoice in Hi. cbn [result] in Hi.
  assert (Hrun : run (cb_buy cb prod_id reply now) s =
    mk_outcome (Ok tt)
      (save_payment (from_user_id cb) prod_id (str (inv_invoice_id i)) (price product) now s)
      [edit_text (message_chat_id cb) (PayText (name product) (price product))
         (Some (pay_keyboard (inv_pay_url i) (inv_invoice_id i) prod_id));
       answer (from_user_id cb) None]).
  { unfold run, cb_buy, create_invoice, await. cbn. rewrite Hprod. cbn.
    destruct reply as [|st body]; [done|]. cbn in *.
    destruct (env_ok body); [|done].
    destruct (env_result body) as [i'|]; [|done]. by injection Hi as ->. }
  rewrite Hrun. cbn [store]. split; [done|]. split; [done|].
  by apply get_payment_save_payment_fresh.
Qed.

Lemma cb_buy_saves_pending_payment_witness :
  let cb := mk_callback 1 (Some "alice") 1 in
  let i := mk_invoice 77 "active" "https://pay/77" in
  let reply := Reply 200 (mk_envelope true (Some i) None) in
  let product := mk_product 1 "key" (Some "d") 999 "text" (Some "SECRET") None 0 "t0" in
  let s := delete_product 1
             (add_product 1 "key" (Some "d") 999 "text" (Some "SECRET") None "t0" init_db) in
  let saved := mk_payment (Z.of_nat (length (payments s)) + 1) (from_user_id cb)
                 1 (str (inv_invoice_id i)) (price product) "pending" "t1" in
  (get_product 1 s = Some product ∧
   result (run (create_invoice reply) s) = Ok (Some i)) ∧
  run (cb_buy cb 1 reply "t1") s =
    mk_outcome (Ok tt)
      (save_payment (from_user_id cb) 1 (str (inv_invoice_id i)) (price product) "t1" s)
      [edit_text (message_chat_id cb) (PayText (name product) (price product))
         (Some (pay_keyboard (inv_pay_url i) (inv_invoice_id i) 1));
       answer (from_user_id cb) None] ∧
  payments (store (run (cb_buy cb 1 reply "t1") s)) = payments s ++ [saved] ∧
  (str (inv_invoice_id i) ∉ invoice_ids s →
   get_payment (str (inv_invoice_id i)) (store (run (cb_buy cb 1 reply "t1") s)) =
     Some saved).
Proof.
  intros cb i reply product s saved.
  assert (H1 : get_product 1 s = Some product) by reflexivity.
  assert (H2 : result (run (create_invoice reply) s) = Ok (Some i)) by reflexivity.
  split; [done|].
  exact (cb_buy_saves_pending_payment cb 1 reply "t1" s product i H1 H2).
Defined.


(** X14. From buying to delivery. After [cb_buy] has saved the payment of a
    newly issued invoice, a payment check of that invoice id for which the
    processor reports paid records one purchase of that product at the price
    the product had when it was bought, for the user who checks, delivers the
    product to that user and leaves the payment paid. *)
Theorem buy_then_check_fulfils
    ADMIN_IDS buyer checker prod_id issued reply bought_at checked_at s product i j :
  get_product prod_id s = Some product →
  result (run (create_invoice issued) s) = Ok (Some i) →
  str (inv_invoice_id i) ∉ invoice_ids s →
  result (run (check_invoice reply) s) = Ok (Some j) →
  inv_status j = "paid" →
  let inv := str (inv_invoice_id i) in
  let s1 := store (run (cb_buy buyer prod_id issued bought_at) s) in
  let o := run (cb_check_payment ADMIN_IDS checker inv reply checked_at) s1 in
  result o = Ok tt ∧
  purchases (store o) =
    purchases s ++ [mk_purchase (Z.of_nat (length (purchases s)) + 1)
                      (from_user_id checker) prod_id (price product) checked_at] ∧
  sent o =
    delivery checker product ++
    alerts ADMIN_IDS
      (NewPurchaseText (from_username checker) (name product) (price product)) ∧
  status <$> get_payment inv (store o) = Some "paid".
Proof.
  intros Hprod Hi Hfresh Hj Hst inv s1 o. subst inv.
  destruct (cb_buy_saves_pending_payment buyer prod_id issued bought_at s product i
              Hprod Hi) as (Hrun & _ & Hget).
  specialize (Hget Hfresh). fold s1 in Hget.
  assert (Hs1 : s1 = save_payment (from_user_id buyer) prod_id (str (inv_invoice_id i))
                       (price product) bought_at s) by (unfold s1; by rewrite Hrun).
  assert (Hj1 : result (run (check_invoice reply) s1) = Ok (Some j)).
  { rewrite run_check_invoice in *. exact Hj. }
  assert (Hprod1 : get_product prod_id s1 = Some product) by by rewrite Hs1.
  set (pay := mk_payment _ _ _ _ _ _ _) in Hget.
  assert (Hp : pending (get_payment (str (inv_invoice_id i)) s1) = Some pay)
    by by rewrite Hget.
  unfold o. rewrite (run_check_wins _ _ _ _ _ s1 _ _ Hj1 Hst Hp).
  cbn [payment_product_id pay]. rewrite Hprod1. cbn [result store sent].
  split; [done|]. split; [by rewrite Hs1|]. split; [done|].
  change (get_payment ?v (add_purchase ?u ?pr ?a ?t ?s0)) with (get_payment v s0).
  by rewrite get_payment_update_payment_status, Hget.
Qed.

Lemma buy_then_check_fulfils_witness :
  let buyer := mk_callback 1 (Some "alice") 1 in
  let i := mk_invoice 77 "active" "https://pay/77" in
  let j := mk_invoice 77 "paid" "https://pay/77" in
  let issued := Reply 200 (mk_envelope true (Some i) None) in
  let reply := Reply 200 (mk_envelope true (Some [j]) None) in
  let product := mk_product 1 "key" (Some "d") 999 "text" (Some "SECRET") None 1 "t0" in
  let s := add_product 1 "key" (Some "d") 999 "text" (Some "SECRET") None "t0"
             (add_user 1 (Some "alice") "A" "t" init_db) in
  let inv := str (inv_invoice_id i) in
  let s1 := store (run (cb_buy buyer 1 issued "t1") s) in
  let o := run (cb_check_payment [9] buyer inv reply "t2") s1 in
  (get_product 1 s = Some product ∧
   result (run (create_invoice issued) s) = Ok (Some i) ∧
   (str (inv_invoice_id i) ∉ invoice_ids s) ∧
   result (run (check_invoice reply) s) = Ok (Some j) ∧ inv_status j = "paid") ∧
  result o = Ok tt ∧
  purchases (store o) =
    purchases s ++ [mk_purchase (Z.of_nat (length (purchases s)) + 1)
                      (from_user_id buyer) 1 (price product) "t2"] ∧
  sent o =
    delivery buyer product ++
    alerts [9] (NewPurchaseText (from_username buyer) (name product) (price product)) ∧
  status <$> get_payment inv (store o) = Some "paid".
Proof.
  intros buyer i j issued reply product s inv s1 o.
  assert (H1 : get_product 1 s = Some product) by reflexivity.
  assert (H2 : result (run (create_invoice issued) s) = Ok (Some i)) by reflexivity.
  assert (H3 : str (inv_invoice_id i) ∉ invoice_ids s) by absent.
  assert (H4 : result (run (check_invoice reply) s) = Ok (Some j)) by reflexivity.
  assert (H5 : inv_status j = "paid") by reflexivity.
  split; [done|].
  exact (buy_then_check_fulfils [9] buyer buyer 1 issued reply "t1" "t2" s product i j
           H1 H2 H3 H4 H5).
Defined.

(** ** What the processor's answer is read for *)

(** X15. The gateway client reads only the ok mark of the envelope and, of
    an invoice list, the first invoice: the HTTP status, the error of the
    envelope and every further invoice of the list change nothing in what a
    payment check does. *)
Theorem check_reads_ok_and_first_invoice
    ADMIN_IDS cb inv now s http_status http_status' err err' i more more' :
  run (cb_check_payment ADMIN_IDS cb inv
         (Reply http_status (mk_envelope true (Some (i :: more)) err)) now) s =
  run (cb_check_payment ADMIN_IDS cb inv
         (Reply http_status' (mk_envelope true (Some (i :: more')) err')) now) s ∧
  run (check_invoice (Reply http_status (mk_envelope true (Some (i :: more)) err))) s =
    mk_outcome (Ok (Some i)) s [] ∧
  run (check_invoice (Reply http_status (mk_envelope true (Some []) err))) s =
    mk_outcome (Ok None) s [] ∧
  run (check_invoice (Reply http_status (mk_envelope false (Some (i :: more)) err))) s =
    mk_outcome (Ok None) s [].
Proof. repeat split. Qed.

(** ** The catalogue *)

Lemma by_rowid_total {A : Type} : Total (@by_rowid A).
Proof. intros kv kv'. unfold by_rowid. lia. Qed.

Lemma Sorted_rowids {A : Type} (l : list (Z * A)) : Sorted by_rowid l → Sorted Z.le l.*1.
Proof. by apply Sorted_fmap. Qed.

(** X16. A category listing shows exactly the active products of the
    category, each once and in the order of their ids: a row is listed
    under its id if and only if [get_product] returns it for that id, it
    belongs to the category and its active flag is 1. *)
Theorem listing_is_the_active_products cat_id s :
  (∀ product_id p,
     (product_id, p) ∈ get_products_by_category cat_id s ↔
     get_product product_id s = Some p ∧ category_id p = cat_id ∧ is_active p = 1) ∧
  NoDup (get_products_by_category cat_id s).*1 ∧
  Sorted Z.le (get_products_by_category cat_id s).*1.
Proof.
  split; [|split].
  - intros pid p. apply elem_of_get_products_by_category.
  - unfold get_products_by_category. rewrite merge_sort_Permutation.
    apply NoDup_fst_map_to_list.
  - apply Sorted_rowids, (@Sorted_merge_sort _ by_rowid _ by_rowid_total).
Qed.

Lemma filter_products_delete_category (P : Z * product_row → Prop)
    `{∀ kv, Decision (P kv)} cat_id s :
  (∀ kv, P kv → category_id kv.2 ≠ cat_id) →
  filter P (products (delete_category cat_id s)) = filter P (products s).
Proof.
  intros HP. unfold delete_category. cbn [products]. apply map_eq. intros k.
  apply option_eq. intros p. rewrite !map_lookup_filter_Some. split.
  - by intros [[? _] ?].
  - intros [Hp HPp]. split; [|done]. split; [done|]. by apply (HP (k, p)).
Qed.

(** X17. [delete_category] removes the category and every product row of
    it, active or not, and nothing else: the listing of the category is
    empty afterwards; every other category is still there under its name
    and lists the products it listed; a product of another category is
    returned as before; users, purchases and payments, also those of the
    removed products, stay; and the AUTOINCREMENT counters keep their
    values, so a removed id is not given out again. *)
Theorem delete_category_removes_its_products cat_id s :
  let s' := delete_category cat_id s in
  get_products_by_category cat_id s' = [] ∧
  categories s' !! cat_id = None ∧
  (∀ other, other ≠ cat_id →
     categories s' !! other = categories s !! other ∧
     get_products_by_category other s' = get_products_by_category other s) ∧
  (∀ product_id p,
     get_product product_id s' = Some p ↔
     get_product product_id s = Some p ∧ category_id p ≠ cat_id) ∧
  users s' = users s ∧ purchases s' = purchases s ∧ payments s' = payments s ∧
  seq_categories s' = seq_categories s ∧ seq_products s' = seq_products s.
Proof.
  intros s'. split; [|split; [|split; [|split; [|done]]]].
  - unfold get_products_by_category.
    assert (Hempty : filter (λ kv : Z * product_row,
                               category_id kv.2 = cat_id ∧ is_active kv.2 = 1)
                            (products s') = ∅).
    { apply map_empty. intros pid. apply map_lookup_filter_None. right.
      intros p Hp [Hcat _]. cbn in Hcat.
      assert (Hp' : get_product pid (delete_category cat_id s) = Some p) by exact Hp.
      rewrite get_product_delete_category in Hp'.
      destruct (get_product pid s) as [p0|]; [|done].
      destruct (decide (category_id p0 = cat_id)); [done|]. congruence. }
    by rewrite Hempty, map_to_list_empty.
  - unfold s', delete_category. cbn. apply lookup_delete_eq.
  - intros other Hne. split.
    + unfold s', delete_category. cbn. by apply lookup_delete_ne.
    + unfold get_products_by_category, s'.
      rewrite filter_products_delete_category; [done|].
      intros kv [Hcat _]. by rewrite Hcat.
  - intros pid p. unfold s'. rewrite get_product_delete_category.
    destruct (get_product pid s) as [p0|]; [|split; [done|by intros [? _]]].
    destruct (decide (category_id p0 = cat_id)) as [Heq|Hne].
    + split; [done|]. by intros [[= ->] Hne].
    + split; [by intros [= ->]|by intros [[= ->] _]].
Qed.

Lemma db_eq s s' :
  users s = users s' → categories s = categories s' →
  seq_categories s = seq_categories s' → products s = products s' →
  seq_products s = seq_products s' → purchases s = purchases s' →
  payments s = payments s' → s = s'.
Proof. destruct s, s'. cbn. by intros -> -> -> -> -> -> ->. Qed.

(** X18. [delete_product] only clears the flag of the one row: the product
    is still returned by [get_product], with its flag at 0 and its category,
    name, description, price, type, content, file id and creation time as
    they were; every other product and every other table are as before;
    deleting it again changes nothing more, deleting an id that has no row
    changes nothing at all, and the count of products in the statistics
    drops by one exactly when the product was active. *)
Theorem delete_product_clears_one_flag product_id s :
  let s' := delete_product product_id s in
  (∀ p, get_product product_id s = Some p →
     ∃ p', get_product product_id s' = Some p' ∧ is_active p' = 0 ∧
       category_id p' = category_id p ∧ name p' = name p ∧
       description p' = description p ∧ price p' = price p ∧
       product_type p' = product_type p ∧ content p' = content p ∧
       file_id p' = file_id p ∧ created_at p' = created_at p) ∧
  (∀ other, other ≠ product_id → get_product other s' = get_product other s) ∧
  (users s' = users s ∧ categories s' = categories s ∧ purchases s' = purchases s ∧
   payments s' = payments s ∧ seq_categories s' = seq_categories s ∧
   seq_products s' = seq_products s) ∧
  delete_product product_id s' = s' ∧
  (get_product product_id s = None → s' = s) ∧
  (get_stats s').2 =
    match get_product product_id s with
    | Some p => if decide (is_active p = 1) then (get_stats s).2 - 1 else (get_stats s).2
    | None => (get_stats s).2
    end.
Proof.
  intros s'. unfold s', get_product, delete_product. cbn [products with_products].
  split.
  { intros p Hp. exists (deactivate p). rewrite lookup_alter_eq, Hp. by repeat split. }
  split; [intros other Hne; by apply lookup_alter_ne|].
  split; [done|]. split; [|split].
  - apply db_eq; try done. cbn. apply map_eq. intros i.
    destruct (decide (i = product_id)) as [->|Hne].
    + rewrite !lookup_alter_eq. by destruct (products s !! product_id).
    + by rewrite !lookup_alter_ne.
  - intros Hnone. apply db_eq; try done. cbn. apply map_eq. intros i.
    destruct (decide (i = product_id)) as [->|Hne].
    + by rewrite lookup_alter_eq, Hnone.
    + by rewrite lookup_alter_ne.
  - unfold get_stats. cbn [snd products with_products].
    set (active := λ kv : Z * product_row, is_active kv.2 = 1).
    assert (Hdel : filter active (alter deactivate product_id (products s)) =
                   delete product_id (filter active (products s))).
    { apply map_eq. intros i. destruct (decide (i = product_id)) as [->|Hne].
      - rewrite lookup_delete_eq. apply map_lookup_filter_None. right.
        intros p. rewrite lookup_alter_eq.
        destruct (products s !! product_id); [|done]. intros [= <-]. by cbv.
      - rewrite lookup_delete_ne by done. apply option_eq. intros p.
        rewrite !map_lookup_filter_Some, lookup_alter_ne; done. }
    rewrite Hdel, map_size_delete.
    destruct (products s !! product_id) as [p|] eqn:Hp.
    + destruct (decide (is_active p = 1)) as [Hact|Hact].
      * rewrite (map_lookup_filter_Some_2 active _ _ p Hp Hact).
        assert (size (filter active (products s)) ≠ 0%nat).
        { apply map_size_ne_0_lookup. exists product_id.
          rewrite (map_lookup_filter_Some_2 active _ _ p Hp Hact). by eexists. }
        lia.
      * assert (Hn : filter active (products s) !! product_id = None).
        { apply map_lookup_filter_None. right. intros p' Hp' Hact'.
          rewrite Hp in Hp'. injection Hp' as <-. by apply Hact. }
        by rewrite Hn.
    + assert (Hn : filter active (products s) !! product_id = None).
      { apply map_lookup_filter_None. by left. }
      by rewrite Hn.
Qed.

(** ** Statistics *)

Lemma size_alter_users (f : user_row → user_row) (user_id : Z) (m : gmap Z user_row) :
  size (alter f user_id m) = size m.
Proof. by rewrite <- !size_dom, dom_alter_L. Qed.

(** X19. A sale shows in the statistics as one more purchase: after a
    payment check that wins, the counts [get_stats] returns are the same
    number of users, the same number of active products and the purchase
    count plus one, also when the product row is gone and nothing could be
    delivered, and also when the user who checks has no users row. *)
Theorem get_stats_after_a_sale ADMIN_IDS cb inv reply now s i pay :
  result (run (check_invoice reply) s) = Ok (Some i) →
  inv_status i = "paid" →
  get_payment inv s = Some pay →
  status pay = "pending" →
  let '(users_count, purchases_count, _, products_count) := get_stats s in
  let '(users_count', purchases_count', _, products_count') :=
    get_stats (store (run (cb_check_payment ADMIN_IDS cb inv reply now) s)) in
  users_count' = users_count ∧ purchases_count' = purchases_count + 1 ∧
  products_count' = products_count.
Proof.
  intros Hi Hst Hpay Hpending.
  assert (Hp : pending (get_payment inv s) = Some pay) by by apply pending_Some.
  pose proof (run_check_wins ADMIN_IDS cb inv reply now s i pay Hi Hst Hp) as Hrun.
  cbv zeta in Hrun.
  assert (Hstore : store (run (cb_check_payment ADMIN_IDS cb inv reply now) s) =
            add_purchase (from_user_id cb) (payment_product_id pay) (amount pay) now
              (update_payment_status inv "paid" s)).
  { rewrite Hrun. by destruct (get_product (payment_product_id pay) s). }
  rewrite Hstore. unfold get_stats, add_purchase, update_payment_status. cbn.
  rewrite size_alter_users, length_app. cbn. split; [done|]. split; [lia|done].
Qed.

Lemma get_stats_after_a_sale_witness :
  let cb := mk_callback 5 (Some "eve") 5 in
  let reply := Reply 200 (mk_envelope true (Some [mk_invoice 77 "paid" "u"]) None) in
  let i := mk_invoice 77 "paid" "u" in
  let pay := mk_payment 1 1 1 "77" 999 "pending" "t1" in
  let s := save_payment 1 1 "77" 999 "t1"
             (add_product 1 "key" (Some "d") 999 "text" (Some "SECRET") None "t0"
                (add_user 1 (Some "alice") "A" "t" init_db)) in
  (result (run (check_invoice reply) s) = Ok (Some i) ∧ inv_status i = "paid" ∧
   get_payment "77" s = Some pay ∧ status pay = "pending") ∧
  let '(users_count, purchases_count, _, products_count) := get_stats s in
  let '(users_count', purchases_count', _, products_count') :=
    get_stats (store (run (cb_check_payment [9] cb "77" reply "t2") s)) in
  users_count' = users_count ∧ purchases_count' = purchases_count + 1 ∧
  products_count' = products_count.
Proof.
  intros cb reply i pay s.
  assert (H1 : result (run (check_invoice reply) s) = Ok (Some i)) by reflexivity.
  assert (H2 : inv_status i = "paid") by reflexivity.
  assert (H3 : get_payment "77" s = Some pay) by reflexivity.
  assert (H4 : status pay = "pending") by reflexivity.
  split; [done|].
  exact (get_stats_after_a_sale [9] cb "77" reply "t2" s i pay H1 H2 H3 H4).
Defined.

(** ** Conversations and who may change the shop *)

Lemma in_state_true st wanted : in_state st wanted = true → st = Some wanted.
Proof. unfold in_state. by intros ?%bool_decide_eq_true. Qed.

Lemma route_message_needs_state m st h :
  route_message m st = Some h → needs_state h = true → is_Some st.
Proof.
  unfold route_message. intros Hr Hn.
  repeat (match type of Hr with
          | (if ?c then _ else _) = _ => destruct c eqn:?
          end); simplify_eq; try discriminate;
    repeat match goal with
           | H : _ && _ = true |- _ => apply andb_true_iff in H as [? ?]
           | H : in_state _ _ = true |- _ => apply in_state_true in H
           end; subst; by eexists.
Qed.

Lemma route_callback_needs_state data st h :
  route_callback data st = Some h → needs_state h = true → is_Some st.
Proof.
  unfold route_callback. intros Hr Hn.
  repeat (match type of Hr with
          | (if ?c then _ else _) = _ => destruct c eqn:?
          end); simplify_eq; try discriminate;
    repeat match goal with
           | H : _ && _ = true |- _ => apply andb_true_iff in H as [? ?]
           | H : in_state _ _ = true |- _ => apply in_state_true in H
           end; subst; by eexists.
Qed.

Lemma ctx_of_in_conversation key w :
  is_Some (fsm_state (ctx_of key w)) →
  ∃ ctx, w_fsm w !! key = Some ctx ∧ is_Some (fsm_state ctx).
Proof.
  unfold ctx_of. destruct (w_fsm w !! key) as [ctx|]; [by eexists|].
  by intros [? ?].
Qed.

Section conversations.
Variable ADMIN_IDS : list Z.

Lemma state_clear_admins key w :
  conversations_of_admins ADMIN_IDS w →
  conversations_of_admins ADMIN_IDS (state_clear key w).
Proof.
  intros Hw key' ctx Hctx. cbn in Hctx.
  apply lookup_delete_Some in Hctx as [_ Hctx]. by apply Hw.
Qed.

Lemma set_state_admins key st w :
  key.2 ∈ ADMIN_IDS →
  conversations_of_admins ADMIN_IDS w →
  conversations_of_admins ADMIN_IDS (set_state key st w).
Proof.
  intros Hkey Hw key' ctx Hctx. cbn in Hctx.
  apply lookup_insert_Some in Hctx as [[<- _]|[_ Hctx]]; [done|by apply Hw].
Qed.

Lemma update_data_admins key f w :
  conversations_of_admins ADMIN_IDS w →
  conversations_of_admins ADMIN_IDS (update_data key f w).
Proof.
  intros Hw key' ctx Hctx Hst. cbn in Hctx.
  apply lookup_insert_Some in Hctx as [[<- <-]|[_ Hctx]]; [|by eapply Hw].
  cbn in Hst. apply ctx_of_in_conversation in Hst as (ctx & Hctx & Hst).
  by apply (Hw key ctx).
Qed.

Lemma with_db_admins f w :
  conversations_of_admins ADMIN_IDS w →
  conversations_of_admins ADMIN_IDS (with_db f w).
Proof. done. Qed.

Lemma with_settings_admins f w :
  conversations_of_admins ADMIN_IDS w →
  conversations_of_admins ADMIN_IDS (with_settings f w).
Proof. done. Qed.

Lemma in_conversation_is_admin key w :
  conversations_of_admins ADMIN_IDS w →
  is_Some (fsm_state (ctx_of key w)) → key.2 ∈ ADMIN_IDS.
Proof.
  intros Hw (ctx & Hctx & Hst)%ctx_of_in_conversation. by apply (Hw key ctx).
Qed.

Lemma is_admin_true user_id : is_admin ADMIN_IDS user_id = true → user_id ∈ ADMIN_IDS.
Proof. unfold is_admin. by intros ?%bool_decide_eq_true. Qed.

Lemma new_product_admins key ptype pcontent pfile now w :
  conversations_of_admins ADMIN_IDS w →
  conversations_of_admins ADMIN_IDS (new_product key ptype pcontent pfile now w).
Proof.
  intros Hw. unfold new_product. repeat case_match; try done.
  by apply state_clear_admins, with_db_admins.
Qed.

Lemma step_keeps_conversations u w :
  conversations_of_admins ADMIN_IDS w →
  conversations_of_admins ADMIN_IDS (step ADMIN_IDS u w).
Proof.
  intros Hw. unfold step. destruct (route u w) as [h|] eqn:Hr; [|done].
  destruct u as [m now|cb data arg issued polled now]; cbn [route fsm_key] in Hr.
  - pose proof (route_message_needs_state _ _ _ Hr) as Hst.
    assert (Hkey : needs_state h = true → (msg_chat_id m, msg_from_id m).2 ∈ ADMIN_IDS).
    { intros Hn. by apply (in_conversation_is_admin _ w), Hst. }
    clear Hr Hst. unfold handle_message.
    destruct h; cbn [needs_state] in Hkey;
      repeat case_match; simplify_eq;
      eauto using state_clear_admins, set_state_admins, update_data_admins,
        with_db_admins, with_settings_admins, new_product_admins.
  - pose proof (route_callback_needs_state _ _ _ Hr) as Hst.
    assert (Hkey : needs_state h = true →
                   (message_chat_id cb, from_user_id cb).2 ∈ ADMIN_IDS).
    { intros Hn. by apply (in_conversation_is_admin _ w), Hst. }
    clear Hr Hst. unfold handle_callback.
    destruct h; cbn [needs_state] in Hkey;
      repeat case_match; simplify_eq;
      repeat match goal with
             | H : is_admin _ _ = true |- _ => apply is_admin_true in H
             end;
      eauto using state_clear_admins, set_state_admins, update_data_admins,
        with_db_admins, with_settings_admins.
Qed.

Lemma steps_keep_conversations us w :
  conversations_of_admins ADMIN_IDS w →
  conversations_of_admins ADMIN_IDS (steps ADMIN_IDS us w).
Proof.
  revert w. induction us as [|u us IH]; intros w Hw; [done|].
  apply IH. by apply step_keeps_conversations.
Qed.
End conversations.

Lemma conversations_init ADMIN_IDS : conversations_of_admins ADMIN_IDS init_world.
Proof.
  intros key ctx Hctx. change (w_fsm init_world) with (∅ : gmap (Z * Z) fsm_ctx) in Hctx.
  by rewrite lookup_empty in Hctx.
Qed.

Lemma is_admin_false ADMIN_IDS user_id :
  user_id ∉ ADMIN_IDS → is_admin ADMIN_IDS user_id = false.
Proof. intros H. unfold is_admin. by apply bool_decide_eq_false. Qed.

Lemma state_clear_no_state key w : fsm_state (ctx_of key (state_clear key w)) = None.
Proof. unfold ctx_of, state_clear. cbn. by rewrite lookup_delete_eq. Qed.

Lemma ctx_of_with_db key f w : ctx_of key (with_db f w) = ctx_of key w.
Proof. reflexivity. Qed.

Lemma cb_buy_keeps_catalogue cb prod_id issued now s :
  let s' := store (run (cb_buy cb prod_id issued now) s) in
  categories s' = categories s ∧ products s' = products s.
Proof.
  cbv zeta. rewrite run_cb_buy_store. destruct (get_product prod_id s); [|done].
  by destruct (result (run (create_invoice issued) s)) as [[i|]|].
Qed.

Lemma cb_check_keeps_catalogue ADMIN_IDS cb inv polled now s :
  let s' := store (run (cb_check_payment ADMIN_IDS cb inv polled now) s) in
  categories s' = categories s ∧ products s' = products s.
Proof.
  cbv zeta.
  by destruct (check_store_run ADMIN_IDS cb inv polled now s) as [->|[->|(p & _ & ->)]].
Qed.

(** X20. Only administrators change the shop. In every world reached from
    the empty one through the dispatcher, whatever the updates were, an
    update sent by a user who is not in ADMIN_IDS, whatever message or
    callback data it carries, leaves the categories, the products, the
    media and the shop settings exactly as they are and leaves that user
    outside any conversation: the handlers that write them either test
    ADMIN_IDS or ask for a conversation state that only a tested handler
    starts. *)
Theorem only_admins_change_the_shop ADMIN_IDS us u :
  sender u ∉ ADMIN_IDS →
  let w := steps ADMIN_IDS us init_world in
  let w' := step ADMIN_IDS u w in
  categories (w_db w') = categories (w_db w) ∧
  products (w_db w') = products (w_db w) ∧
  w_settings w' = w_settings w ∧
  fsm_state (ctx_of (fsm_key u) w') = None.
Proof.
  intros Hsender w. unfold w. clear w.
  pose proof (steps_keep_conversations ADMIN_IDS us init_world
                (conversations_init ADMIN_IDS)) as Hw.
  revert Hw. generalize (steps ADMIN_IDS us init_world). intros w Hw. cbv zeta.
  assert (Hnone : fsm_state (ctx_of (fsm_key u) w) = None).
  { destruct (fsm_state (ctx_of (fsm_key u) w)) as [st|] eqn:Hst; [|done].
    destruct Hsender.
    assert (Hk : (fsm_key u).2 ∈ ADMIN_IDS)
      by (apply (in_conversation_is_admin _ _ w Hw); rewrite Hst; by eexists).
    by destruct u. }
  unfold step, route. destruct u as [m now|cb data arg issued polled now];
    cbn [fsm_key sender] in *; rewrite Hnone.
  - unfold route_message. cbn [in_state].
    destruct (msg_is_start m); [|destruct (msg_is_admin m)]; cbn [handle_message].
    + rewrite ctx_of_with_db, state_clear_no_state.
      cbn [w_db w_settings with_db state_clear]. unfold add_user.
      by destruct (users (w_db w) !! msg_from_id m).
    + by rewrite (is_admin_false _ _ Hsender).
    + repeat case_match; simplify_eq; done.
  - pose proof (is_admin_false _ _ Hsender) as Hna.
    unfold route_callback. rewrite andb_false_r.
    repeat case_match; simplify_eq; unfold handle_callback; rewrite ?Hna, ?Hnone;
      cbn [bool_decide decide_rel]; repeat case_match; simplify_eq;
      rewrite ?ctx_of_with_db, ?state_clear_no_state;
      cbn [w_db w_settings with_db state_clear].
    all: try done.
    all: try by destruct (cb_buy_keeps_catalogue cb z issued now (w_db w)) as [-> ->].
    all: try by destruct (cb_check_keeps_catalogue ADMIN_IDS cb s polled now (w_db w))
                  as [-> ->].
Qed.

Lemma only_admins_change_the_shop_witness :
  let admin := mk_callback 9 (Some "boss") 9 in
  let eve := mk_callback 5 (Some "eve") 5 in
  let no_invoice : http_reply invoice := TransportFailure in
  let no_poll : http_reply (list invoice) := TransportFailure in
  let says t parsed := mk_message 9 9 (Some "boss") "B" (Some t) None [] None None None
                         false false false parsed in
  let photo := mk_message 9 9 (Some "boss") "B" None None ["small"; "large"] None None None
                 false false true None in
  let us := [Callback admin "addcat" None no_invoice no_poll "t1";
             Message (says "keys" None) "t2";
             Callback admin "newprodcat_1" (Some 1) no_invoice no_poll "t3";
             Message (says "key" None) "t4";
             Message photo "t5";
             Message (says "9,99" (Some (Some 999))) "t6";
             Callback admin "prodtype_text" None no_invoice no_poll "t7";
             Message (says "SECRET" None) "t8"] in
  let u := Callback eve "delprod_1" (Some 1) no_invoice no_poll "t9" in
  let w := steps [9] us init_world in
  let w' := step [9] u w in
  (sender u ∉ [9]) ∧
  get_product 1 (w_db w) =
    Some (mk_product 1 "key" None 999 "text" (Some "SECRET") None 1 "t8") ∧
  categories (w_db w') = categories (w_db w) ∧
  products (w_db w') = products (w_db w) ∧
  w_settings w' = w_settings w ∧
  fsm_state (ctx_of (fsm_key u) w') = None.
Proof.
  intros admin eve no_invoice no_poll says photo us u w w'.
  assert (H : sender u ∉ [9]) by absent.
  split; [exact H|]. split; [reflexivity|].
  exact (only_admins_change_the_shop [9] us u H).
Defined.

(** X21. [cancel_state] never runs. It is registered last, and each of the
    six callback data it filters on is taken by a handler registered before
    it, so no callback and no message is ever routed to it, whatever the
    conversation state. *)
Theorem cancel_state_never_runs u w : route u w ≠ Some on_cancel_state.
Proof.
  destruct u as [m now|cb data arg issued polled now]; cbn [route].
  - unfold route_message. repeat case_match; congruence.
  - unfold route_callback.
    repeat (match goal with
            | |- (if ?c then _ else _) ≠ _ => destruct c eqn:?
            end); try congruence.
    match goal with
    | H : bool_decide (_ ∈ _) = true |- _ => apply bool_decide_eq_true in H
    end.
    repeat match goal with
           | H : _ ∈ _ :: _ |- _ => apply elem_of_cons in H as [->|H]
           | H : _ ∈ [] |- _ => by apply elem_of_nil in H
           end; discriminate.
Qed.

(** ** Callback data *)

Lemma split_on_no_sep sep s : occurs sep s = false → split_on sep s = [s].
Proof.
  induction s as [|c s IH]; [done|]. cbn. intros [Hc Hs]%orb_false_iff.
  by rewrite Hc, IH.
Qed.

Lemma occurs_string_of_uint d :
  occurs "_"%char (DecimalString.NilEmpty.string_of_uint d) = false.
Proof. induction d; simpl; auto. Qed.

Lemma occurs_str z : occurs "_"%char (str z) = false.
Proof.
  unfold str, DecimalString.NilZero.string_of_int, DecimalString.NilZero.string_of_uint.
  destruct (Z.to_int z) as [d|d]; destruct d; cbn; try done; apply occurs_string_of_uint.
Qed.

(** X22. The check button finds its invoice. The data of the check button
    is "check_" followed by the decimal text of the invoice id; the router
    gives a callback with that data to [cb_check_payment] in every
    conversation state, and the handler's [split("_")[1]] recovers exactly
    the text under which [cb_buy] saved the payment, also for a negative
    id. *)
Theorem check_button_round_trip pay_url check_id prod_id st :
  ∃ data, check_button_data (pay_keyboard pay_url check_id prod_id) = Some data ∧
    route_callback data st = Some on_cb_check_payment ∧
    data_arg data = Some (str check_id).
Proof.
  eexists. split; [done|].
  pose proof (occurs_str check_id) as Hno. revert Hno.
  generalize (str check_id). intros id Hno. split.
  - unfold route_callback. simpl. by destruct id.
  - unfold data_arg. simpl. change ("" +:+ id) with id.
    by rewrite (split_on_no_sep _ id Hno).
Qed.



(** ** Settings and media *)

(** X24. The shop settings are a key-value store with INSERT OR REPLACE:
    what [set_shop_setting] stored under a key is what [get_shop_setting]
    returns for it, the later value replacing the earlier; a key that was
    never set gives the caller's default; a stored NULL is returned as it is
    and not replaced by the default; other keys and the media table are not
    touched. *)
Theorem shop_setting_round_trip key other value value' default_value c :
  get_shop_setting key default_value (set_shop_setting key value c) = value ∧
  get_shop_setting key default_value
    (set_shop_setting key value' (set_shop_setting key value c)) = value' ∧
  get_shop_setting key default_value (set_shop_setting key None c) = None ∧
  get_shop_setting key default_value no_settings = Some default_value ∧
  (other ≠ key →
   get_shop_setting other default_value (set_shop_setting key value c) =
     get_shop_setting other default_value c) ∧
  media_settings (set_shop_setting key value c) = media_settings c.
Proof.
  unfold get_shop_setting, set_shop_setting. cbn. rewrite !lookup_insert_eq.
  repeat split. intros Hne. by rewrite lookup_insert_ne.
Qed.

Lemma send_with_media_known {K : Type} chat body key (markup : option K) c :
  media_types_known c →
  length (send_with_media chat body key markup c) = 1%nat.
Proof.
  intros Hc. unfold send_with_media, get_media.
  destruct (media_settings c !! key) as [media|] eqn:Hm; [|done].
  destruct (Hc key media Hm) as [-> | [-> | ->] ]; done.
Qed.

Lemma media_of_known m mtype fid :
  media_of m = Some (mtype, fid) →
  mtype = "photo" ∨ mtype = "video" ∨ mtype = "animation".
Proof.
  unfold media_of. intros H. repeat case_match; simplify_eq; auto.
Qed.

Lemma set_media_known key mtype fid c :
  mtype = "photo" ∨ mtype = "video" ∨ mtype = "animation" →
  media_types_known c → media_types_known (set_media key mtype fid c).
Proof.
  intros Ht Hc key' media Hm. destruct key as [key|]; cbn in Hm; [|by eapply Hc].
  apply lookup_insert_Some in Hm as [[_ <-]|[_ Hm]]; [done|by eapply Hc].
Qed.

Lemma delete_media_known key c :
  media_types_known c → media_types_known (delete_media key c).
Proof.
  intros Hc key' media Hm. cbn in Hm.
  apply lookup_delete_Some in Hm as [_ Hm]. by eapply Hc.
Qed.

Lemma new_product_settings key ptype pcontent pfile now w :
  w_settings (new_product key ptype pcontent pfile now w) = w_settings w.
Proof. unfold new_product. by repeat case_match. Qed.

Lemma step_keeps_media_known ADMIN_IDS u w :
  media_types_known (w_settings w) →
  media_types_known (w_settings (step ADMIN_IDS u w)).
Proof.
  intros Hw. unfold step. destruct (route u w) as [h|]; [|done].
  destruct u as [m now|cb data arg issued polled now].
  - unfold handle_message.
    destruct h; repeat case_match; simplify_eq; try done;
      try (by rewrite new_product_settings).
    cbn. eapply set_media_known; [by eapply media_of_known|done].
  - unfold handle_callback.
    destruct h; repeat case_match; simplify_eq; try done.
    cbn. by apply delete_media_known.
Qed.

Lemma steps_keep_media_known ADMIN_IDS us w :
  media_types_known (w_settings w) →
  media_types_known (w_settings (steps ADMIN_IDS us w)).
Proof.
  revert w. induction us as [|u us IH]; intros w Hw; [done|].
  apply IH. by apply step_keeps_media_known.
Qed.

(** X25. A menu is never silent. The only handler that stores a media,
    [process_media_file], stores it as photo, video or animation, so in every
    world reached from the empty one through the dispatcher, whatever the
    updates were, [send_with_media] sends exactly one message for every
    menu: the media with the text as caption, or the plain text when no
    media is set. (A stored type outside the three would make it send
    nothing.) *)
Theorem menus_are_never_silent {K : Type} ADMIN_IDS us chat body key (markup : option K) :
  let w := steps ADMIN_IDS us init_world in
  length (send_with_media chat body key markup (w_settings w)) = 1%nat ∧
  (∀ mtype fid,
     mtype ∉ ["photo"; "video"; "animation"] →
     send_with_media chat body key markup
       (set_media (Some key) mtype fid (w_settings w)) = []).
Proof.
  intros w. split.
  - apply send_with_media_known, steps_keep_media_known.
    intros k media Hm. cbn in Hm. by rewrite lookup_empty in Hm.
  - intros mtype fid Hnot. unfold send_with_media, get_media, set_media. cbn.
    rewrite lookup_insert_eq. cbn.
    destruct (String.eqb mtype "photo") eqn:E1;
      [apply String.eqb_eq in E1; subst; destruct Hnot; set_solver|].
    destruct (String.eqb mtype "video") eqn:E2;
      [apply String.eqb_eq in E2; subst; destruct Hnot; set_solver|].
    destruct (String.eqb mtype "animation") eqn:E3;
      [apply String.eqb_eq in E3; subst; destruct Hnot; set_solver|].
    done.
Qed.



(** ** Broadcast *)




(** ** The add-product conversation *)

(** A plain text of the administrator in one of the four states of the
    add-product conversation that wait for a text. *)
Ltac plain_text_step Hm :=
  let Hchat := fresh in let Hfrom := fresh in let Hstart := fresh in
  let Hcmd := fresh in let Htext := fresh in let Hmenu := fresh in
  destruct Hm as (Hchat & Hfrom & Hstart & Hcmd & Htext & Hmenu);
  unfold step, route; cbn [fsm_key]; rewrite Hchat, Hfrom;
  unfold ctx_of at 1; cbn [w_fsm]; rewrite lookup_insert_eq; cbn [fsm_state];
  unfold route_message, text_is; rewrite Hstart, Hcmd, Htext;
  repeat match goal with
         | |- context [String.eqb ?t ?t'] =>
             replace (String.eqb t t') with false
               by (symmetry; apply String.eqb_neq; intros ->; apply Hmenu;
                   unfold menu_texts; set_solver)
         end;
  repeat match goal with
         | |- context [in_state (Some ?a) ?b] =>
             let v := eval vm_compute in (in_state (Some a) b) in
             change (in_state (Some a) b) with v
         end;
  cbn [andb handle_message]; rewrite ?Hchat, ?Hfrom, ?Htext.

Lemma set_state_update_data key st f db_ settings_ fsm ctx :
  set_state key st (update_data key f (mk_world db_ settings_ (<[key := ctx]> fsm))) =
  mk_world db_ settings_ (<[key := mk_ctx (Some st) (f (fsm_data_of ctx))]> fsm).
Proof.
  unfold set_state, update_data, ctx_of. cbn.
  by rewrite !lookup_insert_eq, !insert_insert_eq.
Qed.

Lemma step_product_name ADMIN_IDS cb t m now d db_ settings_ fsm :
  plain_text_of cb t m →
  let key := (message_chat_id cb, from_user_id cb) in
  step ADMIN_IDS (Message m now)
    (mk_world db_ settings_ (<[key := mk_ctx (Some add_product_name) d]> fsm)) =
  mk_world db_ settings_ (<[key := mk_ctx (Some add_product_desc) (put_name (Some t) d)]> fsm).
Proof. intros Hm key. plain_text_step Hm. apply set_state_update_data. Qed.

Lemma step_product_desc ADMIN_IDS cb t m now d db_ settings_ fsm :
  plain_text_of cb t m →
  let key := (message_chat_id cb, from_user_id cb) in
  step ADMIN_IDS (Message m now)
    (mk_world db_ settings_ (<[key := mk_ctx (Some add_product_desc) d]> fsm)) =
  mk_world db_ settings_
    (<[key := mk_ctx (Some add_product_price) (put_description (Some t) d)]> fsm).
Proof. intros Hm key. plain_text_step Hm. apply set_state_update_data. Qed.

Lemma step_product_price ADMIN_IDS cb t m now pprice d db_ settings_ fsm :
  plain_text_of cb t m →
  msg_price m = Some pprice →
  let key := (message_chat_id cb, from_user_id cb) in
  step ADMIN_IDS (Message m now)
    (mk_world db_ settings_ (<[key := mk_ctx (Some add_product_price) d]> fsm)) =
  mk_world db_ settings_
    (<[key := mk_ctx (Some add_product_type) (put_price pprice d)]> fsm).
Proof. intros Hm Hprice key. plain_text_step Hm. rewrite Hprice. apply set_state_update_data. Qed.

Lemma step_product_content ADMIN_IDS cb t m now d db_ settings_ fsm :
  plain_text_of cb t m →
  let key := (message_chat_id cb, from_user_id cb) in
  let w := mk_world db_ settings_ (<[key := mk_ctx (Some add_product_content) d]> fsm) in
  step ADMIN_IDS (Message m now) w = new_product key "text" (Some t) None now w.
Proof. intros Hm key w. unfold w. by plain_text_step Hm. Qed.

(** X28. The add-product conversation. An administrator who picks a
    category, then sends a name, a description and a price, chooses the text
    type and sends the content (none of the four messages being a command or
    one of the menu texts) ends with exactly one new product row: in the
    picked category, with the name, description, price and content sent, of
    type text, active, under the next id; the conversation is over, nothing
    else in the world has changed, and the product is in the listing of its
    category. *)
Theorem add_product_conversation
    ADMIN_IDS cb cat_id pname pdesc ptext pprice pcontent m_name m_desc m_price m_content
    issued polled now1 now2 now3 now4 now5 now6 w :
  from_user_id cb ∈ ADMIN_IDS →
  plain_text_of cb pname m_name →
  plain_text_of cb pdesc m_desc →
  plain_text_of cb ptext m_price →
  msg_price m_price = Some (Some pprice) →
  plain_text_of cb pcontent m_content →
  let key := (message_chat_id cb, from_user_id cb) in
  let w' := mk_world
              (add_product cat_id pname (Some pdesc) pprice "text" (Some pcontent) None
                 now6 (w_db w))
              (w_settings w) (delete key (w_fsm w)) in
  steps ADMIN_IDS
    [Callback cb ("newprodcat_" +:+ str cat_id) (Some cat_id) issued polled now1;
     Message m_name now2;
     Message m_desc now3;
     Message m_price now4;
     Callback cb "prodtype_text" None issued polled now5;
     Message m_content now6] w = w' ∧
  (seq_products (w_db w) + 1,
   mk_product cat_id pname (Some pdesc) pprice "text" (Some pcontent) None 1 now6)
    ∈ get_products_by_category cat_id (w_db w').
Proof.
  intros Hadmin H1 H2 H3 Hprice H4 key w'. split; [|
    apply elem_of_get_products_by_category; split; [|done];
    unfold w', add_product; cbn; apply lookup_insert_eq].
  assert (Ha : is_admin ADMIN_IDS (from_user_id cb) = true)
    by by apply bool_decide_eq_true_2.
  unfold steps. cbn [foldl].
  assert (Hs1 : step ADMIN_IDS
            (Callback cb ("newprodcat_" +:+ str cat_id) (Some cat_id) issued polled now1) w =
          set_state key add_product_name (update_data key (put_category_id cat_id) w)).
  { assert (Hr : ∀ st, route_callback ("newprodcat_" +:+ str cat_id) st = Some on_cb_newprodcat).
    { intros st. generalize (str cat_id). intros id. unfold route_callback. simpl.
      by destruct id. }
    unfold step, route. rewrite Hr. unfold handle_callback. by rewrite Ha. }
  rewrite Hs1. clear Hs1.
  set (d1 := put_category_id cat_id (fsm_data_of (ctx_of key w))).
  assert (Hw1 : set_state key add_product_name (update_data key (put_category_id cat_id) w) =
                mk_world (w_db w) (w_settings w)
                  (<[key := mk_ctx (Some add_product_name) d1]> (w_fsm w))).
  { unfold set_state, update_data, ctx_of. cbn.
    by rewrite lookup_insert_eq, insert_insert_eq. }
  rewrite Hw1. clear Hw1. fold key.
  rewrite (step_product_name ADMIN_IDS cb pname) by done. fold key.
  rewrite (step_product_desc ADMIN_IDS cb pdesc) by done. fold key.
  rewrite (step_product_price ADMIN_IDS cb ptext _ _ (Some pprice)) by done. fold key.
  set (w4 := mk_world _ _ _).
  assert (Hs5 : step ADMIN_IDS (Callback cb "prodtype_text" None issued polled now5) w4 =
                set_state key add_product_content
                  (update_data key (put_product_type "text") w4)).
  { unfold step, route. cbn [fsm_key]. fold key.
    replace (fsm_state (ctx_of key w4)) with (Some add_product_type)
      by (unfold ctx_of, w4; cbn; by rewrite lookup_insert_eq).
    reflexivity. }
  rewrite Hs5. clear Hs5. unfold w4. rewrite set_state_update_data.
  rewrite (step_product_content ADMIN_IDS cb pcontent) by done. fold key.
  unfold new_product, ctx_of. cbn [w_fsm]. rewrite lookup_insert_eq.
  cbn. unfold w', state_clear. cbn. by rewrite delete_insert_eq.
Qed.

Lemma add_product_conversation_witness :
  let cb := mk_callback 9 (Some "boss") 9 in
  let no_invoice : http_reply invoice := TransportFailure in
  let no_poll : http_reply (list invoice) := TransportFailure in
  let says t parsed := mk_message 9 9 (Some "boss") "B" (Some t) None [] None None None
                         false false false parsed in
  let w := with_db (add_category "keys") init_world in
  let key := (message_chat_id cb, from_user_id cb) in
  let w' := mk_world
              (add_product 1 "key" (Some "a licence key") 999 "text" (Some "SECRET") None
                 "t6" (w_db w))
              (w_settings w) (delete key (w_fsm w)) in
  (from_user_id cb ∈ [9] ∧ plain_text_of cb "key" (says "key" None) ∧
   plain_text_of cb "a licence key" (says "a licence key" None) ∧
   plain_text_of cb "9,99" (says "9,99" (Some (Some 999))) ∧
   msg_price (says "9,99" (Some (Some 999))) = Some (Some 999) ∧
   plain_text_of cb "SECRET" (says "SECRET" None)) ∧
  steps [9]
    [Callback cb ("newprodcat_" +:+ str 1) (Some 1) no_invoice no_poll "t1";
     Message (says "key" None) "t2";
     Message (says "a licence key" None) "t3";
     Message (says "9,99" (Some (Some 999))) "t4";
     Callback cb "prodtype_text" None no_invoice no_poll "t5";
     Message (says "SECRET" None) "t6"] w = w' ∧
  (seq_products (w_db w) + 1,
   mk_product 1 "key" (Some "a licence key") 999 "text" (Some "SECRET") None 1 "t6")
    ∈ get_products_by_category 1 (w_db w').
Proof.
  intros cb no_invoice no_poll says w key w'.
  assert (H0 : from_user_id cb ∈ [9]) by apply list_elem_of_here.
  assert (Hplain : ∀ t parsed, t ∉ menu_texts → plain_text_of cb t (says t parsed))
    by (intros t parsed Ht; by repeat split).
  assert (H1 : plain_text_of cb "key" (says "key" None)) by (apply Hplain; absent).
  assert (H2 : plain_text_of cb "a licence key" (says "a licence key" None))
    by (apply Hplain; absent).
  assert (H3 : plain_text_of cb "9,99" (says "9,99" (Some (Some 999))))
    by (apply Hplain; absent).
  assert (H4 : plain_text_of cb "SECRET" (says "SECRET" None)) by (apply Hplain; absent).
  split; [done|].
  exact (add_product_conversation [9] cb 1 "key" "a licence key" "9,99" 999 "SECRET"
           (says "key" None) (says "a licence key" None) (says "9,99" (Some (Some 999)))
           (says "SECRET" None) no_invoice no_poll "t1" "t2" "t3" "t4" "t5" "t6" w
           H0 H1 H2 H3 eq_refl H4).
Defined.
